(** * COCO 2017 offline set-up script: a shallow embedding and its properties

    The development follows [coco2017_offline_setup.py] top to bottom:
    Python exceptions and the effects the script has (console, file system,
    environment, network, the tensorflow-datasets library), the progress
    indicator with its binary64 arithmetic, the fetch stage, the install
    stage and the orchestrator.  Theorems come after all definitions. *)

From stdpp Require Import gmap strings list pretty.
From Stdlib Require Import SpecFloat Ascii.

Local Open Scope Z_scope.

(** ** Exceptions *)

(** The exception classes the script can meet, with Python's hierarchy.
    [Subclass] stands for any class a library derives from a known one. *)
Inductive exn_class : Type :=
  | BaseException
  | Exception
  | AssertionError
  | ArithmeticError
  | ZeroDivisionError
  | OverflowError
  | ValueError
  | OSError
  | FileExistsError
  | FileNotFoundError
  | NotADirectoryError
  | PermissionError
  | URLError
  | HTTPError
  | ContentTooShortError
  | Subclass (name : string) (base : exn_class).

Global Instance exn_class_eq_dec : EqDecision exn_class.
Proof. solve_decision. Defined.

(** Proper ancestors of a class, nearest first. *)
Fixpoint bases (c : exn_class) : list exn_class :=
  match c with
  | BaseException => []
  | Exception => [BaseException]
  | AssertionError | ArithmeticError | ValueError | OSError =>
      [Exception; BaseException]
  | ZeroDivisionError | OverflowError =>
      [ArithmeticError; Exception; BaseException]
  | FileExistsError | FileNotFoundError | NotADirectoryError
  | PermissionError | URLError =>
      [OSError; Exception; BaseException]
  | HTTPError | ContentTooShortError =>
      [URLError; OSError; Exception; BaseException]
  | Subclass _ b => b :: bases b
  end.

Definition issubclass (c d : exn_class) : bool :=
  bool_decide (d ∈ c :: bases c).

Record exn : Type := Exn { exn_type : exn_class; exn_msg : string }.

Global Instance exn_eq_dec : EqDecision exn.
Proof. solve_decision. Defined.

(** A Python expression either returns a value or raises. *)
Inductive outcome (A : Type) : Type :=
  | Returned (a : A)
  | Raised (e : exn).
Arguments Returned {A} a.
Arguments Raised {A} e.

Global Instance outcome_ret : MRet outcome := λ A a, Returned a.
Global Instance outcome_bind : MBind outcome := λ A B k m,
  match m with
  | Returned a => k a
  | Raised e => Raised e
  end.

(** ** Binary64 arithmetic of the progress computation

    Python's [float] is an IEEE 754 binary64 number; [SpecFloat] gives its
    operations with round-to-nearest-even. *)

Definition prec : Z := 53.
Definition emax : Z := 1024.

(** [float(n)] for an [int]: correctly rounded, [OverflowError] when the
    value is out of range. *)
Definition float_of_int (n : Z) : outcome spec_float :=
  match binary_normalize prec emax n 0 false with
  | S754_infinity _ =>
      Raised (Exn OverflowError "int too large to convert to float")
  | x => Returned x
  end.

Definition float_is_zero (x : spec_float) : bool :=
  match x with
  | S754_zero _ => true
  | _ => false
  end.

(** [x * n] with [x] a float and [n] an int. *)
Definition float_mul_int (x : spec_float) (n : Z) : outcome spec_float :=
  y ← float_of_int n;
  Returned (SFmul prec emax x y).

(** [x / n] with [x] a float and [n] an int. *)
Definition float_truediv_int (x : spec_float) (n : Z) : outcome spec_float :=
  y ← float_of_int n;
  if float_is_zero y
  then Raised (Exn ZeroDivisionError "float division by zero")
  else Returned (SFdiv prec emax x y).

(** Nearest integer to [m * 2^e], ties to the even one. *)
Definition round_half_even (m : positive) (e : Z) : Z :=
  match e with
  | Zneg k =>
      let d := 2 ^ Zpos k in
      let q := Zpos m / d in
      let r := Zpos m mod d in
      match 2 * r ?= d with
      | Lt => q
      | Gt => q + 1
      | Eq => if Z.even q then q else q + 1
      end
  | _ => Zpos m * 2 ^ e
  end.

(** The builtin [round(x)] of a float, one argument. *)
Definition round (x : spec_float) : outcome Z :=
  match x with
  | S754_zero _ => Returned 0
  | S754_finite s m e => Returned (cond_Zopp s (round_half_even m e))
  | S754_infinity _ =>
      Raised (Exn OverflowError "cannot convert float infinity to integer")
  | S754_nan =>
      Raised (Exn ValueError "cannot convert float NaN to integer")
  end.

(** The literal [100.0]. *)
Definition float_100 : spec_float :=
  Eval vm_compute in binary_normalize prec emax 100 0 false.

(** [round( (100.0 * block_num * block_size) / total_size )] *)
Definition curr_percentage (block_num block_size total_size : Z) : outcome Z :=
  a ← float_mul_int float_100 block_num;
  b ← float_mul_int a block_size;
  q ← float_truediv_int b total_size;
  round q.

(** ** The world the script acts on *)

(** A file-system entry: a regular file with its bytes, or a directory.
    Keys of the file system are normalised absolute paths. *)
Inductive node : Type :=
  | File (content : string)
  | Dir.

Global Instance node_eq_dec : EqDecision node.
Proof. solve_decision. Defined.

Record world : Type := World {
  fs : gmap string node;
  environ : gmap string string;
  clock : nat;    (* advances at every call whose result the script cannot predict *)
}.

Definition set_fs (f : gmap string node → gmap string node) (w : world) : world :=
  {| fs := f (fs w); environ := environ w; clock := clock w |}.
Definition set_environ (f : gmap string string → gmap string string) (w : world) : world :=
  {| fs := fs w; environ := f (environ w); clock := clock w |}.
Definition tick (w : world) : world :=
  {| fs := fs w; environ := environ w; clock := S (clock w) |}.

(** tensorflow-datasets' [GenerateMode] and [DownloadConfig], as far as the
    script fills them in. *)
Inductive GenerateMode : Type :=
  | REUSE_DATASET_IF_EXISTS
  | REUSE_CACHE_IF_EXISTS
  | FORCE_REDOWNLOAD.

Record DownloadConfig : Type := {
  download_mode : GenerateMode;
  manual_dir : string;
  extract_dir : string;
}.

(** What the script does that can be seen from outside, in order. *)
Inductive event : Type :=
  | Stdout (text : string)
  | UrlRequest (url : string)
  | LoadSplit (name split : string)
  | DownloadAndPrepare (config : DownloadConfig).

Global Instance GenerateMode_eq_dec : EqDecision GenerateMode.
Proof. solve_decision. Defined.
Global Instance DownloadConfig_eq_dec : EqDecision DownloadConfig.
Proof. solve_decision. Defined.
Global Instance event_eq_dec : EqDecision event.
Proof. solve_decision. Defined.

(** ** Computations: state, exceptions and a log of events *)

Record run (A : Type) : Type := Run {
  result : outcome A;
  final : world;
  events : list event;
}.
Arguments Run {A} result final events.
Arguments result {A} r.
Arguments final {A} r.
Arguments events {A} r.

Definition M (A : Type) : Type := world → run A.

(** The run [r], with [evs] logged before it. *)
Definition log_before {A : Type} (evs : list event) (r : run A) : run A :=
  Run (result r) (final r) (evs ++ events r).

Global Instance M_ret : MRet M := λ A a w, Run (Returned a) w [].
Global Instance M_bind : MBind M := λ A B k m w,
  let r := m w in
  match result r with
  | Returned a => log_before (events r) (k a (final r))
  | Raised e => Run (Raised e) (final r) (events r)
  end.

Definition raise {A : Type} (e : exn) : M A := λ w, Run (Raised e) w [].
Definition get_world : M world := λ w, Run (Returned w) w [].
Definition modify_world (f : world → world) : M unit := λ w, Run (Returned tt) (f w) [].
Definition emit (ev : event) : M unit := λ w, Run (Returned tt) w [ev].
Definition lift {A : Type} (o : outcome A) : M A := λ w, Run o w [].

(** [try: body / except cls: handler] *)
Definition try_except {A : Type} (body : M A) (cls : exn_class) (handler : M A) : M A :=
  λ w,
  let r := body w in
  match result r with
  | Returned a => r
  | Raised e =>
      if issubclass (exn_type e) cls
      then log_before (events r) (handler (final r))
      else r
  end.

(** [with] on a resource whose [__exit__] does not suppress exceptions:
    [release] runs however [body] ends, then the outcome of [body] stands
    unless [release] itself raised. *)
Definition ensuring {A : Type} (body : M A) (release : M unit) : M A :=
  λ w,
  let r := body w in
  let r' := release (final r) in
  Run (match result r' with
       | Returned _ => result r
       | Raised e => Raised e
       end)
      (final r') (events r ++ events r').

(** [print(text)] and [print(text, end="")]; flushing does not change what
    is written. *)
Definition print (text : string) : M unit := emit (Stdout (text +:+ "
")).
Definition print_end (text ending : string) : M unit := emit (Stdout (text +:+ ending)).

(** ** The progress indicator *)

Module UrlretrieveProgressIndicator.

Record t : Type := { last_percentage : option Z }.

Definition __init__ : t := {| last_percentage := None |}.

Definition carriage_return : string := String "013"%char "".

Definition __call__ (self : t) (block_num block_size total_size : Z) : M t :=
  p ← lift (curr_percentage block_num block_size total_size);
  if bool_decide (Some p ≠ last_percentage self)
  then
    print_end (carriage_return +:+ "Progress: " +:+ pretty p +:+ "%") "";;
    mret {| last_percentage := Some p |}
  else mret self.

End UrlretrieveProgressIndicator.

(** ** Paths ([posixpath]) *)

Definition is_sep (c : ascii) : bool := bool_decide (c = "/"%char).

(** [i = p.rfind('/') + 1; (p[:i], p[i:])] *)
Fixpoint rsplit_sep (p : string) : string * string :=
  match p with
  | EmptyString => (EmptyString, EmptyString)
  | String c rest =>
      let (head, tail) := rsplit_sep rest in
      if bool_decide (head = EmptyString)
      then if is_sep c then (String c EmptyString, rest) else (EmptyString, p)
      else (String c head, tail)
  end.

(** [p.rstrip('/')] *)
Fixpoint rstrip_sep (p : string) : string :=
  match p with
  | EmptyString => EmptyString
  | String c rest =>
      let rest' := rstrip_sep rest in
      if bool_decide (rest' = EmptyString) && is_sep c
      then EmptyString
      else String c rest'
  end.

Definition os_path_basename (p : string) : string := snd (rsplit_sep p).

Definition os_path_dirname (p : string) : string :=
  let head := fst (rsplit_sep p) in
  if bool_decide (rstrip_sep head = EmptyString) then head else rstrip_sep head.

Definition startswith_sep (p : string) : bool :=
  match p with
  | String c _ => is_sep c
  | EmptyString => false
  end.

Fixpoint endswith_sep (p : string) : bool :=
  match p with
  | EmptyString => false
  | String c EmptyString => is_sep c
  | String _ rest => endswith_sep rest
  end.

Definition os_path_join (a b : string) : string :=
  if startswith_sep b then b
  else if bool_decide (a = EmptyString) || endswith_sep a then a +:+ b
  else a +:+ "/" +:+ b.

(** [p] names [d] itself or something below it. *)
Definition within (d p : string) : bool :=
  bool_decide (p = d) || String.prefix (d +:+ "/") p.

(** The directories above [rest], outermost first, given that [seen] has
    been read already. *)
Fixpoint parent_dirs (seen rest : string) : list string :=
  match rest with
  | EmptyString => []
  | String c rest' =>
      (if is_sep c && negb (bool_decide (rstrip_sep seen = EmptyString))
       then [seen] else [])
      ++ parent_dirs (seen +:+ String c EmptyString) rest'
  end.

(** ** URLs ([urllib.parse.urlparse]) *)

Record ParseResult : Type := {
  scheme : string;
  netloc : string;
  path : string;
  params : string;
  query : string;
  fragment : string;
}.

(** [(s[:i], s[i:])] for the first position [i] whose character satisfies
    [P], and [(s, "")] when there is none. *)
Fixpoint break (P : ascii → bool) (s : string) : string * string :=
  match s with
  | EmptyString => (EmptyString, EmptyString)
  | String c rest =>
      if P c then (EmptyString, s)
      else let (before, after) := break P rest in (String c before, after)
  end.

(** [s[1:]] *)
Definition drop_first (s : string) : string :=
  match s with
  | EmptyString => EmptyString
  | String _ rest => rest
  end.

Definition is_upper (c : ascii) : bool :=
  let n := nat_of_ascii c in (65 <=? n)%nat && (n <=? 90)%nat.
Definition is_lower (c : ascii) : bool :=
  let n := nat_of_ascii c in (97 <=? n)%nat && (n <=? 122)%nat.
Definition is_digit (c : ascii) : bool :=
  let n := nat_of_ascii c in (48 <=? n)%nat && (n <=? 57)%nat.
Definition is_scheme_char (c : ascii) : bool :=
  is_upper c || is_lower c || is_digit c
  || bool_decide (c = "+"%char) || bool_decide (c = "-"%char)
  || bool_decide (c = "."%char).
Definition lower_char (c : ascii) : ascii :=
  if is_upper c then ascii_of_nat (nat_of_ascii c + 32) else c.

Fixpoint string_forall (P : ascii → bool) (s : string) : bool :=
  match s with
  | EmptyString => true
  | String c rest => P c && string_forall P rest
  end.

Fixpoint string_map (f : ascii → ascii) (s : string) : string :=
  match s with
  | EmptyString => EmptyString
  | String c rest => String (f c) (string_map f rest)
  end.

Definition uses_params : list string :=
  [""; "ftp"; "hdl"; "prospero"; "http"; "imap"; "https"; "shttp"; "rtsp";
   "rtspu"; "sip"; "sips"; "mms"; "sftp"; "tel"].

Definition urlparse (url : string) : ParseResult :=
  (* the scheme, when the text before the first colon is one *)
  let (before, from_colon) := break (λ c, bool_decide (c = ":"%char)) url in
  let (scheme, url) :=
    match before, from_colon with
    | String c0 _, String _ after =>
        if (is_upper c0 || is_lower c0) && string_forall is_scheme_char before
        then (string_map lower_char before, after)
        else (EmptyString, url)
    | _, _ => (EmptyString, url)
    end in
  (* the network location after a double slash *)
  let (netloc, url) :=
    match url with
    | String "/" (String "/" rest) =>
        break (λ c, is_sep c || bool_decide (c = "?"%char) || bool_decide (c = "#"%char)) rest
    | _ => (EmptyString, url)
    end in
  let (url, from_hash) := break (λ c, bool_decide (c = "#"%char)) url in
  let (url, from_qmark) := break (λ c, bool_decide (c = "?"%char)) url in
  (* parameters of the last path segment *)
  let (url, from_semi) :=
    if bool_decide (scheme ∈ uses_params)
    then let (head, last) := rsplit_sep url in
         let (last, from_semi) := break (λ c, bool_decide (c = ";"%char)) last in
         (head +:+ last, from_semi)
    else (url, EmptyString) in
  {| scheme := scheme; netloc := netloc; path := url;
     params := drop_first from_semi; query := drop_first from_qmark;
     fragment := drop_first from_hash |}.

(** ** What the script does not control

    The network, the registry of tensorflow-datasets and the names that
    [tempfile] draws are given from outside, as functions of the world
    they are asked in.  The calls of the Python standard library that the
    script makes ([os], [urllib], [tempfile]) are written below after their
    CPython sources; those of tensorflow-datasets are left to the
    functions given here. *)

(** The answer of a server to one request: the announced length, the
    blocks that successive reads return, and the error, if any, that hits
    the transfer once these blocks have been delivered. *)
Record response : Type := {
  content_length : option Z;
  blocks : list string;
  fault : option exn;
}.

(** A loaded split, as far as the script looks at it: what evaluating
    [ds.cardinality().numpy()] gives, the count of the split or the
    exception that the library raises. *)
Record dataset : Type := { cardinality : outcome Z }.

(** The answer of the registry to [tfds.load(..., download = False)]. *)
Inductive load_result : Type :=
  | Present (ds : dataset)
  | Absent
  | LoadFailure (e : exn).

Record externals : Type := {
  (* os.path.abspath(__file__) *)
  script_file : string;
  (* opening a URL: an error, or a response to read *)
  ext_urlopen : world → string → exn + response;
  (* the candidate names tempfile draws, by draw number *)
  ext_random_name : nat → string;
  (* the registry rooted at a data directory, asked for one split *)
  ext_load : world → string → string → string → load_result;
  (* tfds.builder(name) on a data directory *)
  ext_builder : world → string → string → option exn;
  (* builder.download_and_prepare on a data directory, for a dataset name:
     the file system it leaves, and its error *)
  ext_download_and_prepare :
    world → string → string → DownloadConfig → gmap string node * option exn;
}.

(** The imported [tensorflow_datasets] module: its data directory is fixed
    when the module is imported. *)
Record tfds_module : Type := { DATA_DIR : string }.

(** A dataset builder, bound to its dataset name. *)
Record tfds_builder : Type := { builder_name : string }.

Section Script.

Context (ext : externals).

(** *** File-system calls *)

Definition os_path_exists (p : string) : M bool :=
  w ← get_world;
  mret (bool_decide (is_Some (fs w !! p))).

(** The check every creation of an entry makes on the directory that is
    to hold it. *)
Definition check_parent (p : string) : M unit :=
  w ← get_world;
  match fs w !! os_path_dirname p with
  | Some Dir => mret tt
  | Some (File _) => raise (Exn NotADirectoryError p)
  | None => raise (Exn FileNotFoundError p)
  end.

Definition os_mkdir (p : string) : M unit :=
  present ← os_path_exists p;
  if (present : bool) then raise (Exn FileExistsError p)
  else check_parent p;; modify_world (set_fs (insert p Dir)).

Fixpoint mkdir_missing (dirs : list string) : M unit :=
  match dirs with
  | [] => mret tt
  | d :: rest =>
      present ← os_path_exists d;
      (if (present : bool) then mret tt else os_mkdir d);;
      mkdir_missing rest
  end.

(** [os.makedirs(name)]: the missing directories above [name], then
    [name] itself. *)
Definition os_makedirs (name : string) : M unit :=
  mkdir_missing (parent_dirs EmptyString name);;
  os_mkdir name.

(** [open(filename, 'wb')]: the file is created, or emptied. *)
Definition open_wb (filename : string) : M unit :=
  w ← get_world;
  match fs w !! filename with
  | Some Dir => raise (Exn OSError filename)
  | _ => check_parent filename;;
         modify_world (set_fs (insert filename (File EmptyString)))
  end.

Definition append_to (block : string) (n : node) : node :=
  match n with
  | File content => File (content +:+ block)
  | Dir => Dir
  end.

Definition write (filename block : string) : M unit :=
  modify_world (set_fs (alter (append_to block) filename)).

(** [shutil.rmtree], as [TemporaryDirectory] calls it: the directory and
    all below it go; a directory already gone is no error. *)
Definition rmtree (d : string) : M unit :=
  modify_world (set_fs (filter (λ kv, ¬ within d kv.1))).

(** *** [urllib.request.urlretrieve] *)

Definition bs : Z := 1024 * 8.

Section Urlretrieve.

Context {H : Type} (reporthook : H → Z → Z → Z → M H).

(** [while block := fp.read(bs): ...], returning the bytes read. *)
Fixpoint read_blocks (pending : list string) (fault : option exn)
    (filename : string) (size : Z) (hook : H) (read blocknum : Z) : M Z :=
  match pending with
  | [] =>
      match fault with
      | Some e => raise e
      | None => mret read
      end
  | block :: rest =>
      if bool_decide (block = EmptyString) then mret read
      else
        write filename block;;
        hook' ← reporthook hook (blocknum + 1) bs size;
        read_blocks rest fault filename size hook'
          (read + Z.of_nat (String.length block)) (blocknum + 1)
  end.

Definition urlretrieve (url filename : string) (hook : H) : M unit :=
  emit (UrlRequest url);;
  w ← get_world;
  modify_world tick;;
  match ext_urlopen ext w url with
  | inl e => raise e
  | inr resp =>
      open_wb filename;;
      let size := default (-1) (content_length resp) in
      hook' ← reporthook hook 0 bs size;
      read ← read_blocks (blocks resp) (fault resp) filename size hook' 0 0;
      if bool_decide (0 ≤ size ∧ read < size)
      then raise (Exn ContentTooShortError url)
      else mret tt
  end.

End Urlretrieve.

(** *** The fetch stage *)

Fixpoint for_each {A : Type} (items : list A) (body : A → M unit) : M unit :=
  match items with
  | [] => mret tt
  | x :: rest => body x;; for_each rest body
  end.

Definition urls : list string :=
  [ "http://images.cocodataset.org/annotations/annotations_trainval2017.zip";
    "http://images.cocodataset.org/annotations/image_info_test2017.zip";
    "http://images.cocodataset.org/zips/test2017.zip";
    "http://images.cocodataset.org/zips/train2017.zip";
    "http://images.cocodataset.org/zips/val2017.zip" ].

(** Where the body of the loop keeps the file of [url]. *)
Definition file_local_full (dlcache_dir url : string) : string :=
  let url_parsed := urlparse url in
  let file_local := os_path_basename (path url_parsed) in
  os_path_join dlcache_dir file_local.

(** The body of [for url in urls]. *)
Definition download_one (dlcache_dir url : string) : M unit :=
  let file_local_full := file_local_full dlcache_dir url in
  present ← os_path_exists file_local_full;
  if (present : bool) then print ("Already downloaded: '" +:+ url +:+ "'.")
  else
    print ("Downloading '" +:+ url +:+ "'...");;
    urlretrieve UrlretrieveProgressIndicator.__call__ url file_local_full
      UrlretrieveProgressIndicator.__init__;;
    print ("
Done!").

Definition download_coco2017 (dlcache_dir : string) : M unit :=
  present ← os_path_exists dlcache_dir;
  (if negb present then os_makedirs dlcache_dir else mret tt);;
  for_each urls (download_one dlcache_dir).

(** *** [tempfile.TemporaryDirectory] *)

Definition TMP_MAX : nat := Z.to_nat 10000.

(** The loop of [tempfile.mkdtemp]: draw a name, try to create the
    directory, draw again when the name is taken. *)
Fixpoint mkdtemp_loop (attempts : nat) (prefix dir : string) : M string :=
  match attempts with
  | O => raise (Exn FileExistsError "No usable temporary directory name found")
  | S attempts' =>
      w ← get_world;
      modify_world tick;;
      let name := ext_random_name ext (clock w) in
      let file := os_path_join dir (prefix +:+ name) in
      made ← try_except (os_mkdir file;; mret true) FileExistsError (mret false);
      if (made : bool) then mret file else mkdtemp_loop attempts' prefix dir
  end.

Definition mkdtemp (prefix dir : string) : M string :=
  mkdtemp_loop TMP_MAX prefix dir.

(** [with tempfile.TemporaryDirectory(prefix = ..., dir = ...) as name: body] *)
Definition with_TemporaryDirectory {A : Type} (prefix dir : string)
    (body : string → M A) : M A :=
  name ← mkdtemp prefix dir;
  ensuring (body name) (rmtree name).

(** *** Calls into tensorflow-datasets *)

Definition tfds_load (tfds : tfds_module) (name split : string) : M dataset :=
  emit (LoadSplit name split);;
  w ← get_world;
  match ext_load ext w (DATA_DIR tfds) name split with
  | Present ds => mret ds
  | Absent =>
      raise (Exn AssertionError
               ("Dataset " +:+ name +:+ ": could not find data in " +:+ DATA_DIR tfds))
  | LoadFailure e => raise e
  end.

Definition tfds_builder_of (tfds : tfds_module) (name : string) : M tfds_builder :=
  w ← get_world;
  match ext_builder ext w (DATA_DIR tfds) name with
  | Some e => raise e
  | None => mret {| builder_name := name |}
  end.

Definition download_and_prepare (tfds : tfds_module) (builder : tfds_builder)
    (download_config : DownloadConfig) : M unit :=
  emit (DownloadAndPrepare download_config);;
  w ← get_world;
  let (fs', err) :=
    ext_download_and_prepare ext w (DATA_DIR tfds) (builder_name builder)
      download_config in
  modify_world (λ w, tick (set_fs (λ _, fs') w));;
  match err with
  | Some e => raise e
  | None => mret tt
  end.

(** *** The install stage *)

(** The body of the [with] in [install_coco2017]. *)
Definition prepare_in (tfds : tfds_module) (dlcache_dir temp_extract_dir : string)
    : M unit :=
  let download_config :=
    {| download_mode := REUSE_DATASET_IF_EXISTS;
       manual_dir := dlcache_dir;
       extract_dir := temp_extract_dir |} in
  builder ← tfds_builder_of tfds "coco/2017";
  download_and_prepare tfds builder download_config;;
  print "Done installing dataset.";;
  print "Deleting temporary extraction directory, please wait...".

Definition install_coco2017 (tfds : tfds_module) (dlcache_dir : string) : M unit :=
  with_TemporaryDirectory "extract_tmp_" (os_path_dirname (script_file ext))
    (prepare_in tfds dlcache_dir);;
  print "Installation completed!".

(** *** The orchestrator *)

(** The body of the [try] in [main]: the three loads, then the report,
    each count being read when its line is formatted. *)
Definition report_installed (tfds : tfds_module) : M unit :=
  ds_train ← tfds_load tfds "coco/2017" "train";
  ds_validation ← tfds_load tfds "coco/2017" "validation";
  ds_test ← tfds_load tfds "coco/2017" "test";
  print "COCO 2017 dataset is already installed:";;
  n_train ← lift (cardinality ds_train);
  print ("  #samples (train):      " +:+ pretty n_train);;
  n_validation ← lift (cardinality ds_validation);
  print ("  #samples (validation): " +:+ pretty n_validation);;
  n_test ← lift (cardinality ds_test);
  print ("  #samples (test):       " +:+ pretty n_test).

(** The body of the [except AssertionError] in [main]. *)
Definition install_now (tfds : tfds_module) : M unit :=
  print "COCO 2017 dataset is not installed yet, installing it now...";;
  let dlcache_dir := os_path_join (os_path_dirname (script_file ext)) "dlcache" in
  download_coco2017 dlcache_dir;;
  install_coco2017 tfds dlcache_dir.

Definition main (tfds : tfds_module) : M unit :=
  try_except (report_installed tfds) AssertionError (install_now tfds).

(** *** Module level *)

(** [import tensorflow_datasets as tfds]: the library reads its data
    directory from the environment at this point. *)
Definition import_tensorflow_datasets : M tfds_module :=
  w ← get_world;
  mret {| DATA_DIR :=
            default (os_path_join "~" "tensorflow_datasets")
                    (environ w !! "TFDS_DATA_DIR") |}.

(** The statements of the module before [main] is called. *)
Definition module_level : M tfds_module :=
  modify_world
    (set_environ
       (insert "TFDS_DATA_DIR"
          (os_path_join (os_path_dirname (script_file ext)) "tf_datasets")));;
  import_tensorflow_datasets.

(** Running the file as a program. *)
Definition program : M unit :=
  tfds ← module_level;
  main tfds.

End Script.

(** ** Measures on a log of events *)

Definition is_download (ev : event) : bool :=
  match ev with
  | UrlRequest _ => true
  | _ => false
  end.

Definition is_install (ev : event) : bool :=
  match ev with
  | DownloadAndPrepare _ => true
  | _ => false
  end.

Definition is_stdout (ev : event) : bool :=
  match ev with
  | Stdout _ => true
  | _ => false
  end.

Definition downloads (evs : list event) : list event := filter is_download evs.
Definition installs (evs : list event) : list event := filter is_install evs.

(** What the progress indicator writes for percentage [p]. *)
Definition progress_text (p : Z) : string :=
  UrlretrieveProgressIndicator.carriage_return +:+ "Progress: " +:+ pretty p +:+ "%".

(** ** The fetch stage on part of the manifest

    [download_coco2017] with [entries] in the place of [urls]; with [urls]
    itself it is [download_coco2017]. *)
Definition fetch_entries (ext : externals) (entries : list string)
    (dlcache_dir : string) : M unit :=
  present ← os_path_exists dlcache_dir;
  (if negb present then os_makedirs dlcache_dir else mret tt);;
  for_each entries (download_one ext dlcache_dir).

(** ** The registry as the presence check sees it

    The splits are asked for in the order train, validation, test, and the
    first answer that is not a loaded split ends the check. *)
Definition presence (ext : externals) (tfds : tfds_module) (w : world) : load_result :=
  match ext_load ext w (DATA_DIR tfds) "coco/2017" "train" with
  | Present _ =>
      match ext_load ext w (DATA_DIR tfds) "coco/2017" "validation" with
      | Present _ => ext_load ext w (DATA_DIR tfds) "coco/2017" "test"
      | answer => answer
      end
  | answer => answer
  end.

Definition is_load (ev : event) : bool :=
  match ev with
  | LoadSplit _ _ => true
  | _ => false
  end.

(** ** Floats that are integers written exactly

    [normal s N] is the binary64 number of sign [s] and magnitude [N], for
    [0 < N < 2 ^ 53], with its mantissa of 53 bits. *)
Definition normal (s : bool) (N : Z) : spec_float :=
  S754_finite s (Z.to_pos (N * 2 ^ (52 - Z.log2 N))) (Z.log2 N - 52).

(** The samples whose products are formed without rounding: a block
    count and a block size whose product, times 100, is below [2 ^ 53],
    and a total size that is not zero and below [2 ^ 53] in magnitude. *)
Definition exact_range (block_num block_size total_size : Z) : Prop :=
  0 ≤ block_num
  ∧ 0 ≤ block_size < 2 ^ 53
  ∧ 100 * block_num < 2 ^ 53
  ∧ 100 * block_num * block_size < 2 ^ 53
  ∧ total_size ≠ 0
  ∧ - 2 ^ 53 < total_size < 2 ^ 53.

(** ** Invariants of a computation

    [maintains I E m]: from a world that satisfies [I], [m] ends, normally
    or not, in a world that satisfies [I], and every event it logs
    satisfies [E]. *)
Definition maintains {A : Type} (I : world → Prop) (E : event → Prop) (m : M A) : Prop :=
  ∀ w, I w → I (final (m w)) ∧ Forall E (events (m w)).

(** The entry at path [p] is [c], or there is none when [c] is [None]. *)
Definition entry_is (p : string) (c : option node) (w : world) : Prop :=
  fs w !! p = c.

(** ** Scenarios

    A machine with the script in [/srv/ml], and collaborators that behave
    in the ways the properties below are tried on. *)
Module Scenario.

Definition script : string := "/srv/ml/coco2017_offline_setup.py".

Definition disk : gmap string node :=
  list_to_map
    [ ("/", Dir); ("/srv", Dir); ("/srv/ml", Dir); (script, File "import os") ].

(** A fresh machine. *)
Definition fresh : world := {| fs := disk; environ := ∅; clock := 0 |}.

(** The cache directory holds a cut-off archive of the validation images. *)
Definition with_partial_archive : world :=
  set_fs (insert "/srv/ml/dlcache/val2017.zip" (File "PK"))
    (set_fs (insert "/srv/ml/dlcache" Dir) fresh).

(** The operator has set the data directory before starting the script. *)
Definition operator_set : world :=
  set_environ (insert "TFDS_DATA_DIR" "/data/tfds") fresh.

(** A server that sends three bytes in two blocks. *)
Definition small_body : response :=
  {| content_length := Some 3; blocks := ["ab"; "c"]; fault := None |}.

(** A registry that has a dataset once its directory is on disk. *)
Definition registry (w : world) (data_dir name split : string) : load_result :=
  if bool_decide (is_Some (fs w !! (data_dir +:+ "/" +:+ name)))
  then Present {| cardinality := Returned 5000 |}
  else Absent.

(** A library call that registers the dataset and leaves a file in the
    extraction directory. *)
Definition prepare (w : world) (data_dir name : string) (config : DownloadConfig)
    : gmap string node * option exn :=
  (<[data_dir +:+ "/" +:+ name := Dir]>
     (<[extract_dir config +:+ "/annotations.json" := File "{}"]> (fs w)),
   None).

Definition healthy : externals :=
  {| script_file := script;
     ext_urlopen := λ _ _, inr small_body;
     ext_random_name := λ n, "k3x" +:+ pretty n;
     ext_load := registry;
     ext_builder := λ _ _ _, None;
     ext_download_and_prepare := prepare |}.

(** The server refuses the third archive. *)
Definition refused : exn := Exn HTTPError "HTTP Error 503: Service Unavailable".

Definition third_download_fails : externals :=
  {| script_file := script;
     ext_urlopen := λ _ url,
       if bool_decide (url = "http://images.cocodataset.org/zips/test2017.zip")
       then inl refused else inr small_body;
     ext_random_name := λ n, "k3x" +:+ pretty n;
     ext_load := registry;
     ext_builder := λ _ _ _, None;
     ext_download_and_prepare := prepare |}.

(** The library call extracts one file and then fails. *)
Definition corrupt : exn := Exn ValueError "corrupt archive".

Definition library_fails : externals :=
  {| script_file := script;
     ext_urlopen := λ _ _, inr small_body;
     ext_random_name := λ n, "k3x" +:+ pretty n;
     ext_load := registry;
     ext_builder := λ _ _ _, None;
     ext_download_and_prepare := λ w _ _ config,
       (<[extract_dir config +:+ "/annotations.json" := File "{}"]> (fs w),
        Some corrupt) |}.


(** The dataset is registered, and an assertion inside the library fails
    while a split is read. *)
Definition inconsistent : exn :=
  Exn AssertionError "shard lengths do not match the dataset info".

Definition load_asserts : externals :=
  {| script_file := script;
     ext_urlopen := λ _ _, inr small_body;
     ext_random_name := λ n, "k3x" +:+ pretty n;
     ext_load := λ _ _ _ _, LoadFailure inconsistent;
     ext_builder := λ _ _ _, None;
     ext_download_and_prepare := prepare |}.

(** The three splits load, and an assertion inside the library fails
    when the count of the test split is read. *)
Definition unreadable : exn := Exn AssertionError "cardinality is not known".

Definition count_asserts : externals :=
  {| script_file := script;
     ext_urlopen := λ _ _, inr small_body;
     ext_random_name := λ n, "k3x" +:+ pretty n;
     ext_load := λ _ _ _ split,
       Present {| cardinality :=
                    if bool_decide (split = "test") then Raised unreadable
                    else Returned 5000 |};
     ext_builder := λ _ _ _, None;
     ext_download_and_prepare := prepare |}.

Definition tfds : tfds_module := {| DATA_DIR := "/srv/ml/tf_datasets" |}.

Definition cache : string := "/srv/ml/dlcache".

Definition annotations_url : string :=
  "http://images.cocodataset.org/annotations/annotations_trainval2017.zip".
Definition image_info_url : string :=
  "http://images.cocodataset.org/annotations/image_info_test2017.zip".
Definition test_url : string := "http://images.cocodataset.org/zips/test2017.zip".
Definition train_url : string := "http://images.cocodataset.org/zips/train2017.zip".
Definition val_url : string := "http://images.cocodataset.org/zips/val2017.zip".

(** The machine once the dataset is installed. *)
Definition installed : world :=
  set_fs (insert "/srv/ml/tf_datasets/coco/2017" Dir) fresh.

End Scenario.

(** * Properties *)

Import UrlretrieveProgressIndicator.

(** ** Running computations *)

Lemma run_bind {A B : Type} (m : M A) (k : A → M B) (w : world) :
  (m ≫= k) w =
  match result (m w) with
  | Returned a =>
      Run (result (k a (final (m w)))) (final (k a (final (m w))))
          (events (m w) ++ events (k a (final (m w))))
  | Raised e => Run (Raised e) (final (m w)) (events (m w))
  end.
Proof. reflexivity. Qed.

Lemma run_bind_returned {A B : Type} (m : M A) (k : A → M B) w a w' evs :
  m w = Run (Returned a) w' evs →
  (m ≫= k) w = log_before evs (k a w').
Proof. intros Hm. rewrite run_bind, Hm. reflexivity. Qed.

Lemma log_before_nil {A : Type} (r : run A) : log_before [] r = r.
Proof. by destruct r. Qed.

Lemma log_before_run {A : Type} (evs evs' : list event) (o : outcome A) (w : world) :
  log_before evs (Run o w evs') = Run o w (evs ++ evs').
Proof. reflexivity. Qed.

Lemma log_before_log_before {A : Type} (evs evs' : list event) (r : run A) :
  log_before evs (log_before evs' r) = log_before (evs ++ evs') r.
Proof. unfold log_before; cbn. by rewrite app_assoc. Qed.

Lemma run_bind_raised {A B : Type} (m : M A) (k : A → M B) w e :
  result (m w) = Raised e →
  (m ≫= k) w = Run (Raised e) (final (m w)) (events (m w)).
Proof. intros Hm. rewrite run_bind, Hm. reflexivity. Qed.

Lemma run_eta {A : Type} (r : run A) : Run (result r) (final r) (events r) = r.
Proof. destruct r; reflexivity. Qed.

(** ** Strings *)

Lemma append_cons (c : ascii) (s t : string) :
  String c s +:+ t = String c (s +:+ t).
Proof. reflexivity. Qed.

Lemma append_empty_r (s : string) : s +:+ "" = s.
Proof.
  induction s as [|c s IH]; [reflexivity|]. by rewrite append_cons, IH.
Qed.

Lemma append_assoc (s1 s2 s3 : string) : (s1 +:+ s2) +:+ s3 = s1 +:+ (s2 +:+ s3).
Proof.
  induction s1 as [|c s1 IH]; [reflexivity|]. by rewrite !append_cons, IH.
Qed.

Lemma prefix_append (s t u : string) :
  String.prefix (s +:+ t) (s +:+ u) = String.prefix t u.
Proof.
  induction s as [|c s IH]; [reflexivity|].
  rewrite !append_cons. cbn [String.prefix].
  destruct (ascii_dec c c); [exact IH | done].
Qed.

(** ** Binary64 arithmetic on the exact range *)

Lemma digits2_pos_size (p : positive) : digits2_pos p = Pos.size p.
Proof. induction p as [p IH|p IH|]; cbn; congruence. Qed.

Lemma Zdigits2_log2 (p : positive) : Zdigits2 (Zpos p) = Z.log2 (Zpos p) + 1.
Proof.
  cbn [Zdigits2]. rewrite digits2_pos_size.
  pose proof (Pos.size_gt p) as Hgt. pose proof (Pos.size_le p) as Hle.
  apply Pos2Z.pos_lt_pos in Hgt. apply Pos2Z.pos_le_pos in Hle.
  rewrite Pos2Z.inj_pow in Hgt, Hle. rewrite Pos2Z.inj_xO in Hle.
  set (d := Zpos (Pos.size p)) in *.
  assert (1 ≤ d) as Hpos by (subst d; clear; lia).
  symmetry. apply Z.add_move_r. apply Z.log2_unique; [clear -Hpos; lia|].
  replace (Z.succ (d - 1)) with d by (clear; lia).
  split; [|exact Hgt].
  replace d with (Z.succ (d - 1)) in Hle by (clear; lia).
  rewrite Z.pow_succ_r in Hle by (clear -Hpos; lia).
  change (2 * 1) with 2 in Hle. clear -Hle. lia.
Qed.

Lemma shr_1_double (m : Z) :
  0 ≤ m →
  shr_1 {| shr_m := 2 * m; shr_r := false; shr_s := false |}
  = {| shr_m := m; shr_r := false; shr_s := false |}.
Proof. intros Hm. destruct m as [|p|p]; [reflexivity | reflexivity | lia]. Qed.

Lemma pow2_xI (p : positive) : 2 ^ Zpos p~1 = 2 * (2 ^ Zpos p * 2 ^ Zpos p).
Proof.
  rewrite Pos2Z.inj_xI. replace (2 * Zpos p + 1) with (Zpos p + Zpos p + 1) by lia.
  rewrite !Z.pow_add_r, Z.pow_1_r by lia. ring.
Qed.

Lemma pow2_xO (p : positive) : 2 ^ Zpos p~0 = 2 ^ Zpos p * 2 ^ Zpos p.
Proof.
  rewrite (Pos2Z.inj_xO p). replace (2 * Zpos p) with (Zpos p + Zpos p) by lia.
  rewrite Z.pow_add_r by lia. reflexivity.
Qed.

Lemma iter_pos_shr_1_exact (p : positive) (q : Z) :
  0 ≤ q →
  iter_pos shr_1 p {| shr_m := q * 2 ^ Zpos p; shr_r := false; shr_s := false |}
  = {| shr_m := q; shr_r := false; shr_s := false |}.
Proof.
  revert q. induction p as [p IH|p IH|]; intros q Hq; cbn [iter_pos].
  - assert (0 < 2 ^ Zpos p) as Hpow by (apply Z.pow_pos_nonneg; lia).
    replace (q * 2 ^ Zpos p~1) with (2 * ((q * 2 ^ Zpos p) * 2 ^ Zpos p))
      by (rewrite pow2_xI; ring).
    rewrite shr_1_double by nia. rewrite IH by nia. by apply IH.
  - assert (0 < 2 ^ Zpos p) as Hpow by (apply Z.pow_pos_nonneg; lia).
    replace (q * 2 ^ Zpos p~0) with ((q * 2 ^ Zpos p) * 2 ^ Zpos p)
      by (rewrite pow2_xO; ring).
    rewrite IH by nia. by apply IH.
  - rewrite Z.pow_1_r. replace (q * 2) with (2 * q) by lia. by apply shr_1_double.
Qed.

Lemma shr_1_m (mrs : shr_record) :
  0 ≤ shr_m mrs → shr_m (shr_1 mrs) = shr_m mrs / 2.
Proof.
  destruct mrs as [m r s]. cbn [shr_m]. intros Hm.
  destruct m as [|[p|p|]|p]; cbn [shr_1 shr_m]; try lia; try reflexivity.
  - rewrite (Pos2Z.inj_xI p). apply (Z.div_unique _ _ _ 1); lia.
  - rewrite (Pos2Z.inj_xO p). apply (Z.div_unique _ _ _ 0); lia.
Qed.


Lemma Zdigits2_mul_pow2 (q : positive) (n : Z) (m : positive) :
  0 ≤ n → Zpos m = Zpos q * 2 ^ n →
  Zdigits2 (Zpos m) = Zdigits2 (Zpos q) + n.
Proof.
  intros Hn Hm. rewrite !Zdigits2_log2, Hm.
  rewrite Z.log2_mul_pow2; [clear; lia | clear; lia | exact Hn].
Qed.

Lemma binary_round_aux_exact (s : bool) (m q : positive) (e n : Z) :
  fexp prec emax (Zdigits2 (Zpos m) + e) = e + n →
  0 ≤ n → Zpos m = Zpos q * 2 ^ n → e + n ≤ emax - prec →
  binary_round_aux prec emax s (Zpos m) e loc_Exact = S754_finite s q (e + n).
Proof.
  intros Hfexp Hn Hm Hmax.
  assert (fexp prec emax (Zdigits2 (Zpos q) + (e + n)) = e + n) as Hfexp'.
  { transitivity (fexp prec emax (Zdigits2 (Zpos m) + e)); [f_equal|exact Hfexp].
    rewrite (Zdigits2_mul_pow2 q n m) by done. clear; lia. }
  unfold binary_round_aux, shr_fexp. rewrite Hfexp.
  replace (e + n - e) with n by (clear; lia).
  cbn [shr_record_of_loc].
  assert (shr {| shr_m := Zpos m; shr_r := false; shr_s := false |} e n
          = ({| shr_m := Zpos q; shr_r := false; shr_s := false |}, e + n)) as ->.
  { destruct n as [|p|p]; [| |clear -Hn; lia]; cbn [shr].
    - rewrite Z.pow_0_r, Z.mul_1_r in Hm. rewrite Hm. f_equal. clear; lia.
    - rewrite Hm. by rewrite iter_pos_shr_1_exact by (clear; lia). }
  cbn [shr_m loc_of_shr_record round_nearest_even shr_record_of_loc].
  rewrite Hfexp'. rewrite Z.sub_diag. cbn [shr shr_m].
  apply Z.leb_le in Hmax. by rewrite Hmax.
Qed.

Lemma fexp_eq (x : Z) : fexp prec emax x = Z.max (x - 53) (-1074).
Proof. reflexivity. Qed.

Lemma Zpos_iter_xO (p k : positive) : Zpos (Pos.iter xO p k) = Zpos p * 2 ^ Zpos k.
Proof.
  induction k as [|k IH] using Pos.peano_ind.
  - cbn [Pos.iter]. rewrite Z.pow_1_r. lia.
  - rewrite Pos.iter_succ, Pos2Z.inj_xO, IH, Pos2Z.inj_succ, Z.pow_succ_r by lia.
    ring.
Qed.

Lemma log2_small (N : Z) : 0 < N < 2 ^ 53 → 0 ≤ Z.log2 N ≤ 52.
Proof.
  intros [Hpos Hlt]. split; [apply Z.log2_nonneg|].
  assert (Z.log2 N < 53); [|lia]. apply Z.log2_lt_pow2; [exact Hpos|exact Hlt].
Qed.

Lemma normal_mantissa (N : Z) :
  0 < N < 2 ^ 53 →
  Zpos (Z.to_pos (N * 2 ^ (52 - Z.log2 N))) = N * 2 ^ (52 - Z.log2 N)
  ∧ Z.log2 (N * 2 ^ (52 - Z.log2 N)) = 52.
Proof.
  intros HN. pose proof (log2_small N HN) as Hlog.
  assert (0 < 2 ^ (52 - Z.log2 N)) as Hpow by (apply Z.pow_pos_nonneg; lia).
  split.
  - apply Z2Pos.id. nia.
  - rewrite Z.log2_mul_pow2 by lia. lia.
Qed.

Lemma float_of_int_pos (p : positive) :
  Zpos p < 2 ^ 53 → float_of_int (Zpos p) = Returned (normal false (Zpos p)).
Proof.
  intros Hlt. assert (0 < Zpos p < 2 ^ 53) as HN by lia.
  pose proof (log2_small _ HN) as Hlog.
  destruct (normal_mantissa _ HN) as [Hm Hd].
  unfold float_of_int, binary_normalize, binary_round.
  change (Zpos (digits2_pos p)) with (Zdigits2 (Zpos p)).
  rewrite Zdigits2_log2, Z.add_0_r, fexp_eq.
  rewrite Z.max_l by lia.
  set (l := Z.log2 (Zpos p)) in *.
  assert (∃ mz, shl_align p 0 (l + 1 - 53) = (mz, l - 52)
                ∧ Zpos mz = Zpos p * 2 ^ (52 - l)) as (mz & -> & Hmz).
  { unfold shl_align. rewrite Z.sub_0_r.
    destruct (l + 1 - 53) as [|k|k] eqn:Hk; [| lia |].
    - exists p. split; [f_equal; lia|]. replace (52 - l) with 0 by lia.
      rewrite Z.pow_0_r. lia.
    - exists (Pos.iter xO p k). split; [f_equal; lia|].
      rewrite Zpos_iter_xO. f_equal. f_equal. lia. }
  rewrite (binary_round_aux_exact false mz mz (l - 52) 0).
  - unfold normal. fold l. rewrite Z.add_0_r. do 2 f_equal.
    apply Pos2Z.inj. by rewrite Hm, Hmz.
  - rewrite Zdigits2_log2, Hmz, Hd, fexp_eq. lia.
  - lia.
  - rewrite Z.pow_0_r. lia.
  - unfold emax, prec. lia.
Qed.

Lemma float_of_int_neg (p : positive) :
  Zpos p < 2 ^ 53 → float_of_int (Zneg p) = Returned (normal true (Zpos p)).
Proof.
  intros Hlt. pose proof (float_of_int_pos p Hlt) as Hpos.
  unfold float_of_int, binary_normalize, binary_round in *.
  destruct (shl_align p 0 _) as [mz ez].
  unfold binary_round_aux in *.
  destruct (shr_fexp prec emax (Zpos mz) ez loc_Exact) as [mrs' e'].
  destruct (shr_fexp prec emax _ e' loc_Exact) as [mrs'' e''].
  destruct (shr_m mrs'') as [|m|m]; try discriminate Hpos.
  destruct (e'' <=? emax - prec); [|discriminate Hpos].
  unfold normal in *. by inversion Hpos.
Qed.

Lemma SFmul_normal (s1 s2 : bool) (A B : Z) :
  0 < A → 0 < B → A * B < 2 ^ 53 →
  SFmul prec emax (normal s1 A) (normal s2 B) = normal (xorb s1 s2) (A * B).
Proof.
  intros HA HB HAB.
  assert (0 < A < 2 ^ 53) as HA' by nia.
  assert (0 < B < 2 ^ 53) as HB' by nia.
  assert (0 < A * B < 2 ^ 53) as HAB' by nia.
  pose proof (log2_small _ HA') as HlA.
  pose proof (log2_small _ HB') as HlB.
  pose proof (log2_small _ HAB') as HlAB.
  pose proof (Z.log2_mul_below A B HA HB) as Hbelow.
  destruct (normal_mantissa _ HA') as [HmA HdA].
  destruct (normal_mantissa _ HB') as [HmB HdB].
  destruct (normal_mantissa _ HAB') as [HmAB HdAB].
  unfold normal at 1 2. cbn [SFmul].
  set (lA := Z.log2 A) in *. set (lB := Z.log2 B) in *.
  set (lAB := Z.log2 (A * B)) in *.
  set (n := 52 - lA - lB + lAB).
  assert (Zpos (Z.to_pos (A * 2 ^ (52 - lA)) * Z.to_pos (B * 2 ^ (52 - lB)))
          = Zpos (Z.to_pos (A * B * 2 ^ (52 - lAB))) * 2 ^ n) as Hprod.
  { rewrite Pos2Z.inj_mul, HmA, HmB, HmAB. subst n.
    assert (2 ^ (52 - lA) * 2 ^ (52 - lB)
            = 2 ^ (52 - lAB) * 2 ^ (52 - lA - lB + lAB)) as Hpow.
    { rewrite <- !Z.pow_add_r by lia. f_equal. lia. }
    replace (A * 2 ^ (52 - lA) * (B * 2 ^ (52 - lB)))
      with (A * B * (2 ^ (52 - lA) * 2 ^ (52 - lB))) by ring.
    rewrite Hpow. ring. }
  rewrite (binary_round_aux_exact _ _ (Z.to_pos (A * B * 2 ^ (52 - lAB))) _ n).
  - unfold normal. fold lAB. f_equal. lia.
  - rewrite Zdigits2_log2, Hprod, HmAB.
    rewrite Z.log2_mul_pow2 by (subst n; lia || (apply Z.mul_pos_pos; [lia|apply Z.pow_pos_nonneg; lia])).
    rewrite HdAB, fexp_eq. subst n. lia.
  - subst n. lia.
  - exact Hprod.
  - unfold emax, prec. subst n. lia.
Qed.

Lemma round_nearest_even_bounds (m : Z) (l : location) :
  m ≤ round_nearest_even m l ≤ m + 1.
Proof.
  destruct l as [|[| |]]; cbn [round_nearest_even]; try lia.
  destruct (Z.even m); lia.
Qed.

Lemma shr_m_shr_record_of_loc (m : Z) (l : location) :
  shr_m (shr_record_of_loc m l) = m.
Proof. by destruct l as [|[| |]]. Qed.

(** Rounding a mantissa of 53 or 54 bits: one bit at most is shifted
    out, the mantissa that is left goes up by one at most, and not at all
    when nothing is lost; the result is renormalised when it reaches
    [2 ^ 53]. *)
Lemma binary_round_aux_wide (s : bool) (q e : Z) (loc : location) :
  2 ^ 52 ≤ q < 2 ^ 54 → -1074 ≤ e ≤ 969 →
  0 ≤ Z.log2 q - 52 ≤ 1
  ∧ q / 2 ^ (Z.log2 q - 52) < 2 ^ 53
  ∧ ∃ r1, q / 2 ^ (Z.log2 q - 52) ≤ r1 ≤ q / 2 ^ (Z.log2 q - 52) + 1
    ∧ (loc = loc_Exact → q mod 2 ^ (Z.log2 q - 52) = 0 →
       r1 = q / 2 ^ (Z.log2 q - 52))
    ∧ ∃ m e2, binary_round_aux prec emax s q e loc = S754_finite s m e2
      ∧ ((e2 = e + (Z.log2 q - 52) ∧ Zpos m = r1 ∧ r1 < 2 ^ 53)
         ∨ (e2 = e + (Z.log2 q - 52) + 1 ∧ Zpos m = 2 ^ 52 ∧ r1 = 2 ^ 53)).
Proof.
  intros Hq He.
  assert (0 < q) as Hpos by lia.
  assert (Z.log2 q = 52 ∨ Z.log2 q = 53) as Hlog.
  { assert (52 ≤ Z.log2 q) by (apply Z.log2_le_pow2; lia).
    assert (Z.log2 q < 54) by (apply Z.log2_lt_pow2; lia). lia. }
  split; [lia|].
  destruct q as [|p|p]; try lia.
  assert (2 ^ 52 ≤ Zpos p / 2 ^ (Z.log2 (Zpos p) - 52) < 2 ^ 53) as Hm1b.
  { destruct Hlog as [Hl|Hl]; rewrite Hl.
    - change (52 - 52) with 0. rewrite Z.pow_0_r, Z.div_1_r.
      split; [lia|]. apply Z.log2_lt_pow2; lia.
    - change (53 - 52) with 1. rewrite Z.pow_1_r.
      assert (2 ^ 53 ≤ Zpos p) by (apply Z.log2_le_pow2; lia).
      split; [apply Z.div_le_lower_bound; lia | apply Z.div_lt_upper_bound; lia]. }
  split; [apply Hm1b|].
  unfold binary_round_aux, shr_fexp.
  rewrite Zdigits2_log2, fexp_eq.
  set (n1 := Z.log2 (Zpos p) - 52) in *.
  replace (Z.max (Z.log2 (Zpos p) + 1 + e - 53) (-1074) - e) with n1 by lia.
  set (mrs' := (shr (shr_record_of_loc (Zpos p) loc) e n1).1).
  assert (shr (shr_record_of_loc (Zpos p) loc) e n1 = (mrs', e + n1)
          ∧ shr_m mrs' = Zpos p / 2 ^ n1
          ∧ (loc = loc_Exact → Zpos p mod 2 ^ n1 = 0 →
             loc_of_shr_record mrs' = loc_Exact)) as (-> & Hm1 & Hexact).
  { subst mrs'. destruct Hlog as [Hl|Hl]; subst n1; rewrite Hl.
    - change (52 - 52) with 0. cbn [shr fst].
      rewrite Z.add_0_r, Z.pow_0_r, Z.div_1_r.
      split; [reflexivity|]. split; [by rewrite shr_m_shr_record_of_loc|].
      by intros -> _.
    - change (53 - 52) with 1. cbn [shr fst iter_pos].
      split; [reflexivity|]. split.
      + rewrite shr_1_m, shr_m_shr_record_of_loc; [done|].
        rewrite shr_m_shr_record_of_loc. lia.
      + intros -> Hmod. rewrite Z.pow_1_r in Hmod.
        cbn [shr_record_of_loc].
        replace (Zpos p) with (2 * (Zpos p / 2))
          by (rewrite (Z.div_mod (Zpos p) 2) at 2 by lia; lia).
        rewrite shr_1_double by (apply Z.div_pos; lia). reflexivity. }
  set (r1 := round_nearest_even (shr_m mrs') (loc_of_shr_record mrs')).
  pose proof (round_nearest_even_bounds (shr_m mrs') (loc_of_shr_record mrs')) as Hr1.
  fold r1 in Hr1. rewrite Hm1 in Hr1.
  exists r1. split; [exact Hr1|]. split.
  { intros Hloc Hmod. subst r1. rewrite (Hexact Hloc Hmod). cbn [round_nearest_even].
    exact Hm1. }
  destruct (decide (r1 = 2 ^ 53)) as [Hcarry|Hcarry].
  - rewrite Hcarry. exists (Z.to_pos (2 ^ 52)), (e + n1 + 1).
    split; [|right; by repeat split].
    change (Zdigits2 (2 ^ 53)) with 54. rewrite fexp_eq.
    replace (Z.max (54 + (e + n1) - 53) (-1074) - (e + n1)) with 1 by lia.
    change (shr (shr_record_of_loc (2 ^ 53) loc_Exact) (e + n1) 1)
      with ({| shr_m := Zpos (Z.to_pos (2 ^ 52)); shr_r := false; shr_s := false |},
            e + n1 + 1).
    cbn [shr_m].
    replace (e + n1 + 1 <=? emax - prec) with true
      by (symmetry; apply Z.leb_le; unfold emax, prec; lia).
    reflexivity.
  - assert (2 ^ 52 ≤ r1 < 2 ^ 53) as Hr1b by lia.
    assert (Z.log2 r1 = 52) as Hlr by (apply Z.log2_unique; lia).
    destruct r1 as [|r|r] eqn:Hr; try lia.
    exists r, (e + n1). split; [|left; split; [reflexivity|split; [reflexivity|lia]]].
    rewrite Zdigits2_log2, Hlr, fexp_eq.
    replace (Z.max (52 + 1 + (e + n1) - 53) (-1074) - (e + n1)) with 0 by lia.
    cbn [shr_record_of_loc shr shr_m].
    replace (e + n1 <=? emax - prec) with true
      by (symmetry; apply Z.leb_le; unfold emax, prec; lia).
    reflexivity.
Qed.

Lemma round_half_even_ge (m : positive) (e c : Z) :
  (e ≤ 0 → c * 2 ^ (- e) ≤ Zpos m) →
  (0 < e → c ≤ Zpos m * 2 ^ e) →
  c ≤ round_half_even m e.
Proof.
  intros Hneg Hpos. destruct e as [|k|k]; cbn [round_half_even].
  - specialize (Hneg ltac:(lia)). cbn in Hneg. lia.
  - apply Hpos. lia.
  - specialize (Hneg ltac:(lia)). cbn [Z.opp] in Hneg.
    assert (0 < 2 ^ Zpos k) as Hpow by (apply Z.pow_pos_nonneg; lia).
    assert (c ≤ Zpos m / 2 ^ Zpos k) as Hq
      by (apply Z.div_le_lower_bound; [exact Hpow | rewrite Z.mul_comm; exact Hneg]).
    destruct (2 * (Zpos m mod 2 ^ Zpos k) ?= 2 ^ Zpos k); [|lia|lia].
    destruct (Z.even _); lia.
Qed.

Lemma round_half_even_le (m : positive) (e c : Z) :
  (e ≤ 0 → Zpos m ≤ c * 2 ^ (- e)) →
  (0 < e → Zpos m * 2 ^ e ≤ c) →
  round_half_even m e ≤ c.
Proof.
  intros Hneg Hpos. destruct e as [|k|k]; cbn [round_half_even].
  - specialize (Hneg ltac:(lia)). cbn in Hneg. lia.
  - apply Hpos. lia.
  - specialize (Hneg ltac:(lia)). change (- Z.neg k) with (Zpos k) in Hneg.
    assert (0 < 2 ^ Zpos k) as Hpow by (apply Z.pow_pos_nonneg; lia).
    pose proof (Z.div_mod (Zpos m) (2 ^ Zpos k) ltac:(lia)) as Hdm.
    pose proof (Z.mod_pos_bound (Zpos m) (2 ^ Zpos k) Hpow) as Hrem.
    set (q0 := Zpos m / 2 ^ Zpos k) in *. set (rm := Zpos m mod 2 ^ Zpos k) in *.
    clearbody q0 rm. set (P := 2 ^ Zpos k) in *. clearbody P.
    assert (q0 ≤ c) as Hq0
      by (apply (Z.mul_le_mono_pos_l _ _ P); [exact Hpow | lia]).
    assert (q0 < c ∨ (q0 = c ∧ rm = 0)) as [Hlt|[Heq Hz]].
    { destruct (decide (q0 < c)) as [|Hge]; [by left | right].
      assert (q0 = c) as Heq by lia. split; [exact Heq|]. subst q0. lia. }
    + destruct (Z.compare (2 * rm) P); [destruct (Z.even _)|..]; lia.
    + rewrite Hz. destruct P as [|p|p]; [lia| |lia].
      change (Z.compare (2 * 0) (Zpos p)) with Lt. cbv iota. lia.
Qed.

Lemma new_location_zero (nb_steps : Z) : new_location nb_steps 0 = loc_Exact.
Proof.
  unfold new_location, new_location_even, new_location_odd.
  by destruct (Z.even nb_steps).
Qed.

(** The quotient of two normal numbers, rounded to an integer, lies
    between the integers below and above the exact quotient. *)
Lemma SFdiv_normal (s1 s2 : bool) (A T : Z) :
  0 < A < 2 ^ 53 → 0 < T < 2 ^ 53 →
  ∃ m e, SFdiv prec emax (normal s1 A) (normal s2 T) = S754_finite (xorb s1 s2) m e
         ∧ (∀ c, 0 ≤ c → c * T ≤ A → c ≤ round_half_even m e)
         ∧ (∀ c, A ≤ c * T → round_half_even m e ≤ c).
Proof.
  intros HA HT.
  pose proof (log2_small _ HA) as HlA. pose proof (log2_small _ HT) as HlT.
  destruct (normal_mantissa _ HA) as [HmA HdA].
  destruct (normal_mantissa _ HT) as [HmT HdT].
  unfold normal. cbn [SFdiv]. unfold SFdiv_core_binary.
  rewrite !Zdigits2_log2, HmA, HmT, HdA, HdT, fexp_eq.
  set (lA := Z.log2 A) in *. set (lT := Z.log2 T) in *.
  set (mA := A * 2 ^ (52 - lA)) in *. set (mT := T * 2 ^ (52 - lT)) in *.
  set (e' := lA - lT - 53).
  replace (Z.min (Z.max (52 + 1 + (lA - 52) - (52 + 1 + (lT - 52)) - 53) (-1074))
             (lA - 52 - (lT - 52))) with e' by (subst e'; lia).
  replace (lA - 52 - (lT - 52) - e') with 53 by (subst e'; lia).
  rewrite Z.shiftl_mul_pow2 by lia.
  assert (2 ^ 52 ≤ mA < 2 ^ 53) as HmAb.
  { pose proof (Z.log2_spec mA ltac:(lia)) as Hs. rewrite HdA in Hs.
    change (Z.succ 52) with 53 in Hs. exact Hs. }
  assert (2 ^ 52 ≤ mT < 2 ^ 53) as HmTb.
  { pose proof (Z.log2_spec mT ltac:(lia)) as Hs. rewrite HdT in Hs.
    change (Z.succ 52) with 53 in Hs. exact Hs. }
  pose proof (Z_div_mod (mA * 2 ^ 53) mT ltac:(lia)) as Hdiv.
  destruct (Z.div_eucl (mA * 2 ^ 53) mT) as [q r] eqn:Hqr.
  destruct Hdiv as [Hq Hr].
  assert (2 ^ 52 ≤ q < 2 ^ 54) as Hqb by nia.
  destruct (binary_round_aux_wide (xorb s1 s2) q e' (new_location mT r) Hqb
              ltac:(subst e'; lia))
    as (Hn1 & Hm1 & r1 & Hr1 & Hexact & m & e2 & -> & Hcases).
  exists m, e2. split; [reflexivity|].
  set (n1 := Z.log2 q - 52) in *.
  assert (0 < 2 ^ n1) as Hpn1 by (apply Z.pow_pos_nonneg; lia).
  assert (0 < 2 ^ (- e')) as Hpe' by (apply Z.pow_pos_nonneg; subst e'; lia).
  assert (2 ^ (- e') = 2 ^ n1 * 2 ^ (- e' - n1)) as Hsplit.
  { rewrite <- Z.pow_add_r by (subst e'; lia). f_equal. lia. }
  assert (∀ c, mT * (c * 2 ^ (- e')) = c * T * 2 ^ (105 - lA)) as Hscale.
  { intros c. subst mT e'.
    replace (T * 2 ^ (52 - lT) * (c * 2 ^ (- (lA - lT - 53))))
      with (c * T * (2 ^ (52 - lT) * 2 ^ (- (lA - lT - 53)))) by ring.
    rewrite <- Z.pow_add_r by lia. do 2 f_equal. lia. }
  assert (mA * 2 ^ 53 = A * 2 ^ (105 - lA)) as HscaleA.
  { subst mA. rewrite <- Z.mul_assoc, <- Z.pow_add_r by lia. do 2 f_equal. lia. }
  assert (0 < 2 ^ (105 - lA)) as Hp105 by (apply Z.pow_pos_nonneg; lia).
  split.
  - intros c Hc HcT.
    assert (c * 2 ^ (- e') ≤ q) as Hcq.
    { assert (mT * (c * 2 ^ (- e')) ≤ mA * 2 ^ 53); [|nia].
      rewrite Hscale, HscaleA. by apply Z.mul_le_mono_nonneg_r; [lia|]. }
    assert (c * 2 ^ (- e' - n1) ≤ q / 2 ^ n1) as Hcm.
    { apply Z.div_le_lower_bound; [done|]. rewrite Hsplit in Hcq. lia. }
    apply round_half_even_ge.
    + intros He2. destruct Hcases as [(-> & Hm & Hlt)|(-> & Hm & Hc2)].
      * replace (- (e' + n1)) with (- e' - n1) by lia. lia.
      * rewrite Hm.
        assert (c * 2 ^ (- e' - n1) < 2 ^ 53) as Hlt by lia.
        replace (- e' - n1) with (- (e' + n1 + 1) + 1) in Hlt by lia.
        rewrite Z.pow_add_r, Z.pow_1_r in Hlt by lia.
        change (2 ^ 53) with (2 ^ 52 * 2) in Hlt. lia.
    + intros He2. destruct Hcases as [(-> & Hm & Hlt)|(-> & Hm & Hc2)];
        [subst e'; lia|].
      rewrite Hm. assert (e' + n1 + 1 = 1) as -> by (subst e'; lia).
      assert (- e' - n1 = 0) as Hz by (subst e'; lia).
      rewrite Hz, Z.pow_0_r in Hcm. change (2 ^ 52 * 2 ^ 1) with (2 ^ 53). lia.
  - intros c HcT.
    assert (mT * q + r ≤ mT * (c * 2 ^ (- e'))) as Hle.
    { rewrite <- Hq, Hscale, HscaleA. by apply Z.mul_le_mono_nonneg_r; [lia|]. }
    assert (0 < 2 ^ (- e' - n1)) as Hpe1
      by (apply Z.pow_pos_nonneg; subst e'; lia).
    assert (r1 ≤ c * 2 ^ (- e' - n1)) as Hr1c.
    { destruct (decide (r = 0 ∧ q mod 2 ^ n1 = 0)) as [[Hr0 Hmod]|Hinexact].
      - rewrite Hexact by (by rewrite ?Hr0, ?new_location_zero).
        apply Z.div_le_upper_bound; [done|]. rewrite Hsplit in Hle. nia.
      - assert (q < 2 ^ n1 * (c * 2 ^ (- e' - n1))) as Hlt.
        { pose proof (Z.div_mod q (2 ^ n1) ltac:(lia)) as Hdm.
          pose proof (Z.mod_pos_bound q (2 ^ n1) Hpn1) as Hrem.
          rewrite Hsplit in Hle.
          destruct (decide (r = 0)) as [Hr0|Hr0]; [|nia].
          assert (q mod 2 ^ n1 ≠ 0) as Hmod by tauto.
          assert (q ≤ 2 ^ n1 * (c * 2 ^ (- e' - n1))) as Hqle by nia.
          destruct (decide (q = 2 ^ n1 * (c * 2 ^ (- e' - n1)))) as [Heq|]; [|lia].
          exfalso. apply Hmod. rewrite Heq, Z.mul_comm. by apply Z.mod_mul; lia. }
        apply Z.div_lt_upper_bound in Hlt; [lia|done]. }
    apply round_half_even_le.
    + intros He2. destruct Hcases as [(-> & Hm & Hlt)|(-> & Hm & Hc2)].
      * replace (- (e' + n1)) with (- e' - n1) by lia. lia.
      * rewrite Hm. rewrite Hc2 in Hr1c.
        replace (- e' - n1) with (- (e' + n1 + 1) + 1) in Hr1c by lia.
        rewrite Z.pow_add_r, Z.pow_1_r in Hr1c by lia.
        change (2 ^ 53) with (2 ^ 52 * 2) in Hr1c. lia.
    + intros He2. destruct Hcases as [(-> & Hm & Hlt)|(-> & Hm & Hc2)];
        [subst e'; lia|].
      rewrite Hm. assert (e' + n1 + 1 = 1) as -> by (subst e'; lia).
      assert (- e' - n1 = 0) as Hz by (subst e'; lia).
      rewrite Hz, Z.pow_0_r, Hc2 in Hr1c. change (2 ^ 52 * 2 ^ 1) with (2 ^ 53). lia.
Qed.

Lemma float_100_normal : float_100 = normal false 100.
Proof. reflexivity. Qed.

Lemma float_of_int_small (N : Z) :
  - 2 ^ 53 < N < 2 ^ 53 →
  float_of_int N =
  Returned (match N with
            | Z0 => S754_zero false
            | Zpos p => normal false (Zpos p)
            | Zneg p => normal true (Zpos p)
            end).
Proof.
  intros HN. destruct N as [|p|p].
  - reflexivity.
  - apply float_of_int_pos. lia.
  - apply float_of_int_neg. lia.
Qed.

(** On the exact range the percentage has a value, and for a positive
    total that value is an integer next to the exact quotient. *)
Lemma curr_percentage_exact_range (block_num block_size total_size : Z) :
  exact_range block_num block_size total_size →
  ∃ p, curr_percentage block_num block_size total_size = Returned p
       ∧ (0 < total_size →
          (∀ c, 0 ≤ c → c * total_size ≤ 100 * block_num * block_size → c ≤ p)
          ∧ (∀ c, 100 * block_num * block_size ≤ c * total_size → p ≤ c)).
Proof.
  intros (Hn & Hb & Hn100 & Hprod & Hnz & Ht).
  unfold curr_percentage, float_mul_int, float_truediv_int.
  rewrite (float_of_int_small block_num) by lia. cbn [mbind outcome_bind].
  rewrite (float_of_int_small block_size) by lia. cbn [mbind outcome_bind].
  rewrite (float_of_int_small total_size) by lia. cbn [mbind outcome_bind].
  rewrite float_100_normal.
  destruct total_size as [|t|t]; [done| |].
  - (* a positive total *)
    cbn [float_is_zero normal].
    destruct block_num as [|n|n]; [| |lia].
    { destruct block_size as [|b|b]; [| |lia]; cbn [SFmul SFdiv xorb normal round];
        (exists 0; split; [reflexivity|]; intros _; split; intros c; lia). }
    fold (normal false (Zpos t)).
    rewrite (SFmul_normal false false 100 (Zpos n)) by lia.
    destruct block_size as [|b|b]; [| |lia].
    { unfold normal. cbn [SFmul SFdiv xorb round mbind outcome_bind].
      exists 0. split; [reflexivity|]. intros _. split; intros c; lia. }
    rewrite (SFmul_normal (xorb false false) false (100 * Zpos n) (Zpos b)) by lia.
    destruct (SFdiv_normal (xorb (xorb false false) false) false
                (100 * Zpos n * Zpos b) (Zpos t) ltac:(lia) ltac:(lia))
      as (m & e & -> & Hge & Hle).
    cbn [xorb round cond_Zopp]. eexists. split; [reflexivity|].
    intros _. split; [exact Hge | exact Hle].
  - (* a negative total *)
    cbn [float_is_zero normal].
    destruct block_num as [|n|n]; [| |lia].
    { destruct block_size as [|b|b]; [| |lia]; cbn [SFmul SFdiv xorb normal round];
        (exists 0; split; [reflexivity|]; intros Habs; lia). }
    fold (normal true (Zpos t)).
    rewrite (SFmul_normal false false 100 (Zpos n)) by lia.
    destruct block_size as [|b|b]; [| |lia].
    { unfold normal. cbn [SFmul SFdiv xorb round mbind outcome_bind].
      exists 0. split; [reflexivity|]. intros Habs. lia. }
    rewrite (SFmul_normal (xorb false false) false (100 * Zpos n) (Zpos b)) by lia.
    destruct (SFdiv_normal (xorb (xorb false false) false) true
                (100 * Zpos n * Zpos b) (Zpos t) ltac:(lia) ltac:(lia))
      as (m & e & -> & Hge & Hle).
    cbn [xorb round]. eexists. split; [reflexivity|]. intros Habs. lia.
Qed.

(** The same, with the two integers named: the percentage is away from
    the exact quotient by less than one. *)
Lemma curr_percentage_near_quotient (block_num block_size total_size : Z) :
  exact_range block_num block_size total_size → 0 < total_size →
  ∃ p, curr_percentage block_num block_size total_size = Returned p
       ∧ (p - 1) * total_size < 100 * block_num * block_size < (p + 1) * total_size
       ∧ 0 ≤ p.
Proof.
  intros Hrange Hpos.
  destruct (curr_percentage_exact_range _ _ _ Hrange) as (p & Hp & Hbounds).
  destruct (Hbounds Hpos) as [Hge Hle].
  destruct Hrange as (Hn & Hb & _).
  set (X := 100 * block_num * block_size) in *.
  assert (0 ≤ X) as HX by (subst X; nia).
  exists p. split; [exact Hp|].
  pose proof (Z.div_mod X total_size ltac:(lia)) as Hdm.
  pose proof (Z.mod_pos_bound X total_size Hpos) as Hrem.
  assert (0 ≤ X / total_size) as Hq by (apply Z.div_pos; lia).
  assert (X / total_size ≤ p) as Hlow by (apply Hge; [exact Hq | nia]).
  split; [|lia].
  destruct (decide (X mod total_size = 0)) as [Hexact|Hinexact].
  - assert (p ≤ X / total_size) as Hup by (apply Hle; nia). nia.
  - assert (p ≤ X / total_size + 1) as Hup by (apply Hle; nia). nia.
Qed.




(** ** The progress indicator *)

Lemma float_of_int_zero : float_of_int 0 = Returned (S754_zero false).
Proof. reflexivity. Qed.

(** With a total size of zero the quotient is never formed. *)
Lemma curr_percentage_zero_total (block_num block_size : Z) :
  ∃ e, curr_percentage block_num block_size 0 = Raised e
       ∧ (exn_type e = ZeroDivisionError ∨ exn_type e = OverflowError).
Proof.
  unfold curr_percentage, float_mul_int, float_truediv_int.
  destruct (float_of_int block_num) as [x|e] eqn:Hn; cbn.
  - destruct (float_of_int block_size) as [y|e] eqn:Hb; cbn.
    + eexists; split; [reflexivity | left; reflexivity].
    + unfold float_of_int in Hb.
      destruct (binary_normalize _ _ _ _ _); inversion Hb; subst.
      eexists; split; [reflexivity | right; reflexivity].
  - unfold float_of_int in Hn.
    destruct (binary_normalize _ _ _ _ _); inversion Hn; subst.
    eexists; split; [reflexivity | right; reflexivity].
Qed.

(** C8 (the code departs from it): called with [total_size = 0] the
    progress indicator raises, whatever the other two arguments and its own
    state are; for arguments that convert to float the exception is
    [ZeroDivisionError].  Nothing is written and the state is not updated. *)
Theorem progress_raises_on_zero_total
    (self : t) (block_num block_size : Z) (w : world) :
  ∃ e, __call__ self block_num block_size 0 w = Run (Raised e) w []
       ∧ (exn_type e = ZeroDivisionError ∨ exn_type e = OverflowError).
Proof.
  destruct (curr_percentage_zero_total block_num block_size) as (e & He & Hty).
  exists e. split; [|exact Hty].
  unfold __call__. rewrite run_bind. unfold lift. cbn. rewrite He. reflexivity.
Qed.

(** The first call [urlretrieve] makes when the server announces an empty
    body: block 0, block size 8192, total size 0. *)
Example progress_first_sample_of_empty_body (w : world) :
  __call__ __init__ 0 bs 0 w
  = Run (Raised (Exn ZeroDivisionError "float division by zero")) w [].
Proof. reflexivity. Qed.

Lemma call_returned (self : t) (block_num block_size total_size : Z) (w : world) (p : Z) :
  curr_percentage block_num block_size total_size = Returned p →
  __call__ self block_num block_size total_size w
  = Run (Returned {| last_percentage := Some p |}) w
        (if bool_decide (last_percentage self = Some p) then []
         else [Stdout (progress_text p)]).
Proof.
  intros Hp. unfold __call__. rewrite run_bind. unfold lift; cbn [result final events].
  rewrite Hp. destruct self as [last]; cbn [last_percentage].
  destruct (decide (Some p = last)) as [Heq|Hne].
  - rewrite bool_decide_eq_false_2 by (intros H; apply H; exact Heq).
    rewrite bool_decide_eq_true_2 by done. by subst.
  - rewrite bool_decide_eq_true_2 by done.
    rewrite bool_decide_eq_false_2 by done.
    unfold progress_text. rewrite run_bind. unfold print_end, emit.
    cbn [result final events app]. by rewrite append_empty_r.
Qed.


(** ** Rules for [maintains] *)

Section Maintains.

Context (I : world → Prop) (E : event → Prop).

Lemma maintains_ret {A : Type} (a : A) : maintains I E (mret a).
Proof. intros w Hw. split; [exact Hw | constructor]. Qed.

Lemma maintains_raise {A : Type} (e : exn) : maintains I E (raise (A:=A) e).
Proof. intros w Hw. split; [exact Hw | constructor]. Qed.

Lemma maintains_lift {A : Type} (o : outcome A) : maintains I E (lift o).
Proof. intros w Hw. split; [exact Hw | constructor]. Qed.

Lemma maintains_get_world : maintains I E get_world.
Proof. intros w Hw. split; [exact Hw | constructor]. Qed.

Lemma maintains_emit (ev : event) : E ev → maintains I E (emit ev).
Proof. intros Hev w Hw. split; [exact Hw | by repeat constructor]. Qed.

Lemma maintains_modify_world (f : world → world) :
  (∀ w, I w → I (f w)) → maintains I E (modify_world f).
Proof. intros Hf w Hw. split; [by apply Hf | constructor]. Qed.

Lemma maintains_bind {A B : Type} (m : M A) (k : A → M B) :
  maintains I E m → (∀ a, maintains I E (k a)) → maintains I E (m ≫= k).
Proof.
  intros Hm Hk w Hw. rewrite run_bind.
  destruct (Hm w Hw) as [Hfin Hevs].
  destruct (result (m w)) as [a|e]; cbn [final events].
  - destruct (Hk a _ Hfin) as [Hfin' Hevs'].
    split; [exact Hfin' | by apply Forall_app].
  - by split.
Qed.

Lemma maintains_try_except {A : Type} (body handler : M A) (cls : exn_class) :
  maintains I E body → maintains I E handler →
  maintains I E (try_except body cls handler).
Proof.
  intros Hb Hh w Hw. unfold try_except.
  destruct (Hb w Hw) as [Hfin Hevs].
  destruct (result (body w)) as [a|e]; [by split|].
  destruct (issubclass _ _); [|by split].
  destruct (Hh _ Hfin) as [Hfin' Hevs']. cbn [final events].
  split; [exact Hfin' | by apply Forall_app].
Qed.

Lemma maintains_ensuring {A : Type} (body : M A) (release : M unit) :
  maintains I E body → maintains I E release →
  maintains I E (ensuring body release).
Proof.
  intros Hb Hr w Hw. unfold ensuring. cbn [final events].
  destruct (Hb w Hw) as [Hfin Hevs].
  destruct (Hr _ Hfin) as [Hfin' Hevs'].
  split; [exact Hfin' | by apply Forall_app].
Qed.

End Maintains.

Lemma maintains_print (I : world → Prop) (E : event → Prop) (text : string) :
  (∀ s, E (Stdout s)) → maintains I E (print text).
Proof. intros HE. by apply maintains_emit. Qed.

Lemma maintains_print_end (I : world → Prop) (E : event → Prop) (text ending : string) :
  (∀ s, E (Stdout s)) → maintains I E (print_end text ending).
Proof. intros HE. by apply maintains_emit. Qed.

Lemma maintains_call (I : world → Prop) (E : event → Prop)
    (self : t) (block_num block_size total_size : Z) :
  (∀ s, E (Stdout s)) →
  maintains I E (__call__ self block_num block_size total_size).
Proof.
  intros HE. unfold __call__. apply maintains_bind; [apply maintains_lift|].
  intros p. case_bool_decide.
  - apply maintains_bind; [by apply maintains_print_end|].
    intros _. apply maintains_ret.
  - apply maintains_ret.
Qed.

(** ** File-system calls and single entries *)

Lemma entry_is_tick (p : string) (c : option node) (w : world) :
  entry_is p c w → entry_is p c (tick w).
Proof. done. Qed.

Lemma entry_is_insert_ne (p q : string) (c : option node) (n : node) (w : world) :
  p ≠ q → entry_is p c w → entry_is p c (set_fs (insert q n) w).
Proof. intros Hne Hw. unfold entry_is, set_fs; cbn. by rewrite lookup_insert_ne. Qed.

Lemma entry_is_alter_ne (p q : string) (c : option node) (f : node → node) (w : world) :
  p ≠ q → entry_is p c w → entry_is p c (set_fs (alter f q) w).
Proof. intros Hne Hw. unfold entry_is, set_fs; cbn. by rewrite lookup_alter_ne. Qed.

Section FileSystem.

Context (I : world → Prop) (E : event → Prop).

Lemma maintains_os_path_exists (p : string) : maintains I E (os_path_exists p).
Proof.
  unfold os_path_exists. apply maintains_bind; [apply maintains_get_world|].
  intros w. apply maintains_ret.
Qed.

Lemma maintains_check_parent (p : string) : maintains I E (check_parent p).
Proof.
  unfold check_parent. apply maintains_bind; [apply maintains_get_world|].
  intros w. destruct (fs w !! _) as [[|]|];
    auto using maintains_ret, maintains_raise.
Qed.

End FileSystem.

Section Entries.

Context (E : event → Prop) (p : string).

(** Creating a directory leaves every entry that exists as it is. *)
Lemma os_mkdir_keeps (n : node) (q : string) :
  maintains (entry_is p (Some n)) E (os_mkdir q).
Proof.
  intros w Hw. unfold os_mkdir, os_path_exists.
  rewrite !run_bind. cbn [get_world result final events].
  unfold mret, M_ret. cbn [result final events].
  case_bool_decide as Hq.
  - split; [exact Hw | constructor].
  - rewrite run_bind.
    destruct (maintains_check_parent (entry_is p (Some n)) E q w Hw) as [Hfin Hevs].
    destruct (result (check_parent q w)); cbn [result final events].
    + split; [| by rewrite !app_nil_r].
      apply entry_is_insert_ne; [|exact Hfin].
      intros ->. apply Hq. unfold entry_is in Hw. by rewrite Hw.
    + split; [exact Hfin | by rewrite ?app_nil_r].
Qed.

Lemma mkdir_missing_keeps (n : node) (dirs : list string) :
  maintains (entry_is p (Some n)) E (mkdir_missing dirs).
Proof.
  induction dirs as [|d dirs IH]; [apply maintains_ret|].
  cbn [mkdir_missing].
  apply maintains_bind; [apply maintains_os_path_exists|].
  intros present. apply maintains_bind; [|intros _; exact IH].
  destruct present; [apply maintains_ret | apply os_mkdir_keeps].
Qed.

Lemma os_makedirs_keeps (n : node) (name : string) :
  maintains (entry_is p (Some n)) E (os_makedirs name).
Proof.
  unfold os_makedirs.
  apply maintains_bind; [apply mkdir_missing_keeps|].
  intros _. apply os_mkdir_keeps.
Qed.

(** Opening a file for writing, and writing to it, touch that file only. *)
Lemma open_wb_elsewhere (c : option node) (filename : string) :
  p ≠ filename → maintains (entry_is p c) E (open_wb filename).
Proof.
  intros Hne. unfold open_wb.
  apply maintains_bind; [apply maintains_get_world|].
  intros w.
  assert (maintains (entry_is p c) E
            (check_parent filename;;
             modify_world (set_fs (insert filename (File EmptyString))))) as Hgo.
  { apply maintains_bind; [apply maintains_check_parent|].
    intros _. apply maintains_modify_world.
    intros w'. by apply entry_is_insert_ne. }
  destruct (fs w !! filename) as [[|]|]; auto using maintains_raise.
Qed.

Lemma write_elsewhere (c : option node) (filename block : string) :
  p ≠ filename → maintains (entry_is p c) E (write filename block).
Proof.
  intros Hne. apply maintains_modify_world.
  intros w'. by apply entry_is_alter_ne.
Qed.

End Entries.

(** ** [urlretrieve] *)

Section UrlretrieveProps.

Context (ext : externals) {H : Type} (reporthook : H → Z → Z → Z → M H).
Context (I : world → Prop) (E : event → Prop).
Context (filename : string).

Hypothesis hook_maintains : ∀ h n b s, maintains I E (reporthook h n b s).
Hypothesis write_maintains : ∀ block, maintains I E (write filename block).
Hypothesis open_maintains : maintains I E (open_wb filename).
Hypothesis tick_maintains : ∀ w, I w → I (tick w).

Lemma read_blocks_maintains (pending : list string) (fault : option exn)
    (size : Z) (hook : H) (read blocknum : Z) :
  maintains I E (read_blocks reporthook pending fault filename size hook read blocknum).
Proof.
  revert hook read blocknum.
  induction pending as [|block rest IH]; intros hook read blocknum;
    cbn [read_blocks].
  - destruct fault; auto using maintains_raise, maintains_ret.
  - case_bool_decide; [apply maintains_ret|].
    apply maintains_bind; [apply write_maintains|]. intros _.
    apply maintains_bind; [apply hook_maintains|]. intros hook'.
    apply IH.
Qed.

Lemma urlretrieve_maintains (url : string) (hook : H) :
  E (UrlRequest url) →
  maintains I E (urlretrieve ext reporthook url filename hook).
Proof.
  intros Hurl. unfold urlretrieve.
  apply maintains_bind; [by apply maintains_emit|]. intros _.
  apply maintains_bind; [apply maintains_get_world|]. intros w.
  apply maintains_bind; [by apply maintains_modify_world|]. intros _.
  destruct (ext_urlopen ext w url) as [e|resp]; [apply maintains_raise|].
  apply maintains_bind; [apply open_maintains|]. intros _.
  apply maintains_bind; [apply hook_maintains|]. intros hook'.
  apply maintains_bind; [apply read_blocks_maintains|]. intros read.
  case_bool_decide; auto using maintains_raise, maintains_ret.
Qed.

End UrlretrieveProps.

(** A download touches its own file only. *)
Lemma urlretrieve_elsewhere (ext : externals) (E : event → Prop)
    (p : string) (c : option node) (url filename : string) (hook : t) :
  p ≠ filename → (∀ s, E (Stdout s)) → E (UrlRequest url) →
  maintains (entry_is p c) E (urlretrieve ext __call__ url filename hook).
Proof.
  intros Hne Hout Hurl. apply urlretrieve_maintains; try done.
  - intros. by apply maintains_call.
  - intros. by apply write_elsewhere.
  - by apply open_wb_elsewhere.
Qed.

(** ** The fetch stage *)

Section FetchProps.

Context (ext : externals) (dlcache_dir : string).

Lemma for_each_maintains {A : Type} (I : world → Prop) (E : event → Prop)
    (items : list A) (body : A → M unit) :
  (∀ x, x ∈ items → maintains I E (body x)) →
  maintains I E (for_each items body).
Proof.
  induction items as [|x rest IH]; intros Hbody; cbn [for_each].
  - apply maintains_ret.
  - apply maintains_bind; [apply Hbody; left|].
    intros _. apply IH. intros y Hy. apply Hbody. by right.
Qed.

(** One turn of the loop leaves an existing entry as it is, and asks the
    network for nothing but its own URL, and for that only when its file
    is another one than the existing entry. *)
Lemma download_one_keeps (E : event → Prop) (p : string) (n : node) (url : string) :
  (∀ s, E (Stdout s)) →
  (p ≠ file_local_full dlcache_dir url → E (UrlRequest url)) →
  maintains (entry_is p (Some n)) E (download_one ext dlcache_dir url).
Proof.
  intros Hout Hurl w Hw. unfold download_one, os_path_exists.
  rewrite !run_bind. cbn [get_world result final events].
  unfold mret at 1, M_ret at 1. cbn [result final events].
  case_bool_decide as Hpresent.
  - split; [exact Hw | by repeat constructor].
  - assert (p ≠ file_local_full dlcache_dir url) as Hne.
    { intros ->. apply Hpresent. unfold entry_is in Hw. by rewrite Hw. }
    assert (maintains (entry_is p (Some n)) E
              (print ("Downloading '" +:+ url +:+ "'...");;
               urlretrieve ext __call__ url (file_local_full dlcache_dir url) __init__;;
               print ("
Done!"))) as Hgo.
    { apply maintains_bind; [by apply maintains_print|]. intros _.
      apply maintains_bind; [apply urlretrieve_elsewhere; auto|]. intros _.
      by apply maintains_print. }
    destruct (Hgo w Hw) as [Hfin Hevs]. split; [exact Hfin|].
    by rewrite app_nil_l.
Qed.

Lemma download_coco2017_keeps (E : event → Prop) (p : string) (n : node) :
  (∀ s, E (Stdout s)) →
  (∀ url, url ∈ urls → p ≠ file_local_full dlcache_dir url → E (UrlRequest url)) →
  maintains (entry_is p (Some n)) E (download_coco2017 ext dlcache_dir).
Proof.
  intros Hout Hurl. unfold download_coco2017.
  apply maintains_bind; [apply maintains_os_path_exists|]. intros present.
  apply maintains_bind.
  - destruct present; cbn [negb]; [apply maintains_ret | apply os_makedirs_keeps].
  - intros _. apply for_each_maintains. intros url Hin.
    apply download_one_keeps; auto.
Qed.

End FetchProps.

Lemma bind_returned_inv {A B : Type} (m : M A) (k : A → M B) (w : world) (b : B) :
  result ((m ≫= k) w) = Returned b →
  ∃ a, result (m w) = Returned a
       ∧ result (k a (final (m w))) = Returned b
       ∧ final ((m ≫= k) w) = final (k a (final (m w)))
       ∧ events ((m ≫= k) w) = events (m w) ++ events (k a (final (m w))).
Proof.
  rewrite run_bind. destruct (result (m w)) as [a|e]; cbn [result final events].
  - intros Hk. by exists a.
  - intros Hk. discriminate Hk.
Qed.

Section SkipProps.

Context (ext : externals) (dlcache_dir : string).

(** What a turn of the loop writes for an entry it finds in the cache. *)
Lemma download_one_cached (url : string) (w : world) :
  is_Some (fs w !! file_local_full dlcache_dir url) →
  download_one ext dlcache_dir url w
  = Run (Returned tt) w [Stdout ("Already downloaded: '" +:+ url +:+ "'." +:+ "
")].
Proof.
  intros Hpresent. unfold download_one, os_path_exists.
  rewrite !run_bind. cbn [get_world result final events].
  unfold mret at 1, M_ret at 1. cbn [result final events].
  rewrite bool_decide_eq_true_2 by exact Hpresent.
  unfold print, emit. cbn [result final events app].
  by rewrite !append_assoc.
Qed.

Lemma for_each_skip_logged (items : list string) (url : string) (n : node) (w : world) :
  url ∈ items →
  fs w !! file_local_full dlcache_dir url = Some n →
  result (for_each items (download_one ext dlcache_dir) w) = Returned tt →
  Stdout ("Already downloaded: '" +:+ url +:+ "'." +:+ "
") ∈ events (for_each items (download_one ext dlcache_dir) w).
Proof.
  revert w. induction items as [|x rest IH]; intros w Hin Hw Hres.
  - by apply elem_of_nil in Hin.
  - cbn [for_each] in *.
    destruct (bind_returned_inv _ _ _ _ Hres) as ([] & Hx & Hrest & _ & ->).
    apply elem_of_app.
    destruct (decide (x = url)) as [->|Hne].
    + left. rewrite download_one_cached by (by rewrite Hw).
      cbn [events]. by left.
    + right. apply elem_of_cons in Hin as [->|Hin]; [done|].
      apply (IH _ Hin); [|exact Hrest].
      by apply (download_one_keeps ext dlcache_dir (λ _, True)
                  (file_local_full dlcache_dir url) n x).
Qed.

End SkipProps.

(** C3: the fetch stage never asks the network for a manifest entry whose
    local file is in the cache directory when the stage starts, whatever
    that entry on disk is (existence is the only test, so its content is
    neither read nor changed); and a run that gets to its end has logged
    the entry as already downloaded. *)
Theorem fetch_skips_cached_entries
    (ext : externals) (dlcache_dir : string) (w : world) (url : string) (n : node) :
  url ∈ urls →
  fs w !! file_local_full dlcache_dir url = Some n →
  let r := download_coco2017 ext dlcache_dir w in
  (UrlRequest url ∉ events r)
  ∧ fs (final r) !! file_local_full dlcache_dir url = Some n
  ∧ (result r = Returned tt →
     Stdout ("Already downloaded: '" +:+ url +:+ "'." +:+ "
") ∈ events r).
Proof.
  intros Hin Hw r.
  destruct (download_coco2017_keeps ext dlcache_dir (λ ev, ev ≠ UrlRequest url)
              (file_local_full dlcache_dir url) n) with (w := w)
    as [Hfin Hevs]; [done | | exact Hw |].
  { intros u _ Hne Heq. inversion Heq; subst. by apply Hne. }
  split; [|split].
  - intros Hreq. rewrite Forall_forall in Hevs. by apply (Hevs _ Hreq).
  - exact Hfin.
  - subst r. unfold download_coco2017. intros Hres.
    destruct (bind_returned_inv _ _ _ _ Hres) as (present & Hp & Hres1 & _ & ->).
    destruct (bind_returned_inv _ _ _ _ Hres1) as ([] & Hmk & Hres2 & _ & ->).
    apply elem_of_app; right. apply elem_of_app; right.
    apply (for_each_skip_logged ext dlcache_dir urls url n); [exact Hin | | exact Hres2].
    assert (maintains (entry_is (file_local_full dlcache_dir url) (Some n)) (λ _, True)
              (if negb present then os_makedirs dlcache_dir else mret tt)) as Hpre.
    { destruct present; cbn [negb]; [apply maintains_ret | apply os_makedirs_keeps]. }
    apply Hpre.
    by apply (maintains_os_path_exists (entry_is _ (Some n)) (λ _, True) dlcache_dir w).
Qed.

(** ** Sequencing *)

Lemma bind_assoc_run {A B C : Type} (m : M A) (k : A → M B) (k' : B → M C) (w : world) :
  ((m ≫= k) ≫= k') w = (m ≫= (λ a, k a ≫= k')) w.
Proof.
  rewrite !run_bind. destruct (result (m w)) as [a|e]; cbn [result final events].
  - rewrite run_bind.
    destruct (result (k a (final (m w)))); cbn [result final events];
      by rewrite ?app_assoc.
  - reflexivity.
Qed.

Lemma bind_ext_run {A B : Type} (m : M A) (k1 k2 : A → M B) (w : world) :
  (∀ a w', k1 a w' = k2 a w') → (m ≫= k1) w = (m ≫= k2) w.
Proof. intros Hk. rewrite !run_bind. destruct (result (m w)); by rewrite ?Hk. Qed.

Lemma for_each_app_run {A : Type} (l1 l2 : list A) (body : A → M unit) (w : world) :
  for_each (l1 ++ l2) body w = (for_each l1 body;; for_each l2 body) w.
Proof.
  revert w. induction l1 as [|x l1 IH]; intros w; cbn [for_each app].
  - rewrite run_bind. cbn. by rewrite run_eta.
  - rewrite bind_assoc_run. apply bind_ext_run. intros _ w'. apply IH.
Qed.

(** A turn of the loop that raises ends the loop there. *)
Lemma for_each_raised {A : Type} (x : A) (rest : list A) (body : A → M unit)
    (w : world) (e : exn) :
  result (body x w) = Raised e →
  for_each (x :: rest) body w = Run (Raised e) (final (body x w)) (events (body x w)).
Proof. intros Hx. cbn [for_each]. by apply run_bind_raised. Qed.

Lemma download_coco2017_fetch_entries (ext : externals) (dlcache_dir : string) :
  download_coco2017 ext dlcache_dir = fetch_entries ext urls dlcache_dir.
Proof. reflexivity. Qed.

(** When the stage has got through [done] and the next entry raises,
    that is how the stage on any manifest that continues so ends. *)
Lemma fetch_entries_stops (ext : externals) (dlcache_dir : string)
    (done : list string) (url : string) (rest : list string)
    (w w1 : world) (evs1 : list event) (e : exn) :
  fetch_entries ext done dlcache_dir w = Run (Returned tt) w1 evs1 →
  result (download_one ext dlcache_dir url w1) = Raised e →
  fetch_entries ext (done ++ url :: rest) dlcache_dir w
  = Run (Raised e) (final (download_one ext dlcache_dir url w1))
        (evs1 ++ events (download_one ext dlcache_dir url w1)).
Proof.
  unfold fetch_entries. intros Hdone Hurl.
  rewrite !run_bind in Hdone |- *.
  destruct (result (os_path_exists dlcache_dir w)) as [present|e0];
    cbn [result final events] in *; [|discriminate Hdone].
  rewrite !run_bind in Hdone |- *.
  set (pre := (if negb present then os_makedirs dlcache_dir else mret tt)) in *.
  set (w0 := final (os_path_exists dlcache_dir w)) in *.
  destruct (result (pre w0)) as [[]|e0];
    cbn [result final events] in *; [|discriminate Hdone].
  rewrite for_each_app_run, run_bind.
  set (body := download_one ext dlcache_dir) in *.
  destruct (for_each done body (final (pre w0))) as [res wd evd] eqn:Hloop.
  cbn [result final events] in *.
  inversion Hdone; subst res w1 evs1. clear Hdone.
  rewrite (for_each_raised _ _ _ _ _ Hurl). cbn [result final events].
  by rewrite !app_assoc.
Qed.

(** ** What a download leaves and logs *)

Section DownloadProps.

Context (ext : externals).

Lemma filter_stdout_only (P : event → bool) (evs : list event) :
  (∀ s, P (Stdout s) = false) →
  Forall (λ ev, is_stdout ev = true) evs → filter P evs = [].
Proof.
  intros HP. induction 1 as [|ev evs Hev _ IH]; [reflexivity|].
  destruct ev; try discriminate Hev.
  rewrite filter_cons. destruct (decide _) as [Hd|_]; [|exact IH].
  rewrite HP in Hd. by destruct Hd.
Qed.

(** All that [urlretrieve] logs after its request goes to the console. *)
Lemma urlretrieve_events (url filename : string) (hook : t) (w : world) :
  ∃ evs, events (urlretrieve ext __call__ url filename hook w) = UrlRequest url :: evs
         ∧ Forall (λ ev, is_stdout ev = true) evs.
Proof.
  unfold urlretrieve. rewrite run_bind. cbn [emit result final events].
  eexists; split; [reflexivity|].
  match goal with |- Forall _ (events (?m w)) => assert (maintains (λ _, True) (λ ev, is_stdout ev = true) m) as Hm end.
  { apply maintains_bind; [apply maintains_get_world|]. intros w'.
    apply maintains_bind; [by apply maintains_modify_world|]. intros _.
    destruct (ext_urlopen ext w' url) as [e|resp]; [apply maintains_raise|].
    apply maintains_bind.
    { unfold open_wb. apply maintains_bind; [apply maintains_get_world|].
      intros w''.
      assert (maintains (λ _ : world, True) (λ ev, is_stdout ev = true)
                (check_parent filename;;
                 modify_world (set_fs (insert filename (File EmptyString))))).
      { apply maintains_bind; [apply maintains_check_parent|].
        intros _. by apply maintains_modify_world. }
      destruct (fs w'' !! filename) as [[|]|]; auto using maintains_raise. }
    intros _.
    apply maintains_bind; [by apply maintains_call|]. intros hook'.
    apply maintains_bind.
    { apply read_blocks_maintains.
      - intros. by apply maintains_call.
      - intros. by apply maintains_modify_world. }
    intros read. case_bool_decide; auto using maintains_raise, maintains_ret. }
  by apply Hm.
Qed.

(** A download that returns has left its file on disk. *)
Lemma urlretrieve_returned_present (url filename : string) (hook : t) (w : world) :
  result (urlretrieve ext __call__ url filename hook w) = Returned tt →
  is_Some (fs (final (urlretrieve ext __call__ url filename hook w)) !! filename).
Proof.
  unfold urlretrieve. intros Hres.
  destruct (bind_returned_inv _ _ _ _ Hres) as ([] & _ & Hres1 & -> & _).
  cbn [emit final] in *.
  destruct (bind_returned_inv _ _ _ _ Hres1) as (w' & _ & Hres2 & -> & _).
  cbn [get_world final] in *.
  destruct (bind_returned_inv _ _ _ _ Hres2) as ([] & _ & Hres3 & -> & _).
  cbn [modify_world final] in *.
  destruct (ext_urlopen ext w' url) as [e|resp]; [discriminate Hres3|].
  destruct (bind_returned_inv _ _ _ _ Hres3) as ([] & Hopen & Hres4 & -> & _).
  set (I := λ w0 : world, is_Some (fs w0 !! filename)).
  assert (I (final (open_wb filename (tick w)))) as Hopened.
  { clear -Hopen. unfold open_wb in *. rewrite run_bind in *.
    cbn [get_world result final events] in *.
    assert (∀ w0, result ((check_parent filename;;
               modify_world (set_fs (insert filename (File EmptyString)))) w0)
              = Returned tt →
            I (final ((check_parent filename;;
               modify_world (set_fs (insert filename (File EmptyString)))) w0))) as Hgo.
    { intros w0 Hw0.
      destruct (bind_returned_inv _ _ _ _ Hw0) as ([] & _ & _ & -> & _).
      unfold I, modify_world, set_fs. cbn. rewrite lookup_insert_eq. by eexists. }
    destruct (fs (tick w) !! filename) as [[|]|];
      [by apply Hgo | discriminate Hopen | by apply Hgo]. }
  assert (∀ {A} (m : M A), maintains I (λ _, True) m → ∀ w0, I w0 → I (final (m w0)))
    as Hkeep by (intros A m Hm w0 Hw0; by apply Hm).
  apply Hkeep; [|exact Hopened].
  apply maintains_bind; [by apply maintains_call|]. intros hook'.
  apply maintains_bind.
  { apply read_blocks_maintains.
    - intros. by apply maintains_call.
    - intros block. apply maintains_modify_world. intros w0 Hw0.
      unfold I, set_fs in *. cbn. rewrite lookup_alter_eq.
      destruct Hw0 as [n ->]. by eexists. }
  intros read. case_bool_decide; auto using maintains_raise, maintains_ret.
Qed.

End DownloadProps.

Section ResumeProps.

Context (ext : externals) (dlcache_dir : string).

(** A turn of the loop for an entry that is not in the cache. *)
Lemma download_one_absent (url : string) (w : world) :
  fs w !! file_local_full dlcache_dir url = None →
  download_one ext dlcache_dir url w
  = (print ("Downloading '" +:+ url +:+ "'...");;
     urlretrieve ext __call__ url (file_local_full dlcache_dir url) __init__;;
     print ("
Done!")) w.
Proof.
  intros Hfile. unfold download_one, os_path_exists.
  rewrite (run_bind (get_world ≫= _)), (run_bind get_world).
  cbn [get_world result final events].
  unfold mret at 1, M_ret at 1. cbn [result final events].
  rewrite bool_decide_eq_false_2 by (rewrite Hfile; by intros [? ?]).
  cbn [app]. apply run_eta.
Qed.

(** A turn of the loop that raises found no file, asked the network
    once, and logged nothing after its failure. *)
Lemma download_one_raised (url : string) (w : world) (e : exn) :
  result (download_one ext dlcache_dir url w) = Raised e →
  fs w !! file_local_full dlcache_dir url = None
  ∧ downloads (events (download_one ext dlcache_dir url w)) = [UrlRequest url].
Proof.
  intros Hres.
  destruct (fs w !! file_local_full dlcache_dir url) as [n|] eqn:Hfile.
  { rewrite download_one_cached in Hres by (by rewrite Hfile). discriminate Hres. }
  split; [reflexivity|].
  rewrite download_one_absent by exact Hfile.
  rewrite run_bind. cbn [print emit result final events].
  rewrite run_bind.
  set (dl := urlretrieve ext __call__ url (file_local_full dlcache_dir url) __init__ w).
  destruct (urlretrieve_events ext url (file_local_full dlcache_dir url) __init__ w)
    as (evs & Hevs & Hout).
  fold dl in Hevs.
  assert (downloads (events dl) = [UrlRequest url]) as Hdl.
  { rewrite Hevs. unfold downloads. rewrite filter_cons_True by done.
    by rewrite (filter_stdout_only is_download evs). }
  unfold downloads in *.
  destruct (result dl); cbn [print emit result final events app];
    rewrite filter_cons_False by (intros Hf; exact Hf);
    rewrite ?filter_app, Hdl; reflexivity.
Qed.

(** A turn of the loop that returns leaves the file of its entry. *)
Lemma download_one_returned_present (url : string) (w : world) :
  result (download_one ext dlcache_dir url w) = Returned tt →
  is_Some (fs (final (download_one ext dlcache_dir url w))
             !! file_local_full dlcache_dir url).
Proof.
  destruct (fs w !! file_local_full dlcache_dir url) as [n|] eqn:Hfile.
  { rewrite download_one_cached by (by rewrite Hfile). cbn. by rewrite Hfile. }
  rewrite download_one_absent by exact Hfile.
  intros Hres.
  destruct (bind_returned_inv _ _ _ _ Hres) as ([] & _ & Hres1 & -> & _).
  cbn [print emit final] in *.
  destruct (bind_returned_inv _ _ _ _ Hres1) as ([] & Hdl & _ & -> & _).
  cbn [print emit final].
  by apply urlretrieve_returned_present.
Qed.

Lemma for_each_returned_present (entries : list string) (w w1 : world)
    (evs1 : list event) :
  for_each entries (download_one ext dlcache_dir) w = Run (Returned tt) w1 evs1 →
  ∀ u, u ∈ entries → is_Some (fs w1 !! file_local_full dlcache_dir u).
Proof.
  revert w evs1. induction entries as [|x rest IH]; intros w evs1 Hrun u Hin.
  - by apply elem_of_nil in Hin.
  - cbn [for_each] in Hrun.
    assert (result ((download_one ext dlcache_dir x;;
                     for_each rest (download_one ext dlcache_dir)) w) = Returned tt)
      as Hres by (by rewrite Hrun).
    destruct (bind_returned_inv _ _ _ _ Hres) as ([] & Hx & Hrest & Hfin & _).
    rewrite Hrun in Hfin. cbn [final] in Hfin.
    set (wx := final (download_one ext dlcache_dir x w)) in *.
    destruct (decide (u ∈ rest)) as [Hu|Hu].
    + apply (IH wx (events (for_each rest (download_one ext dlcache_dir) wx)));
        [|exact Hu].
      rewrite <- (run_eta (for_each rest _ wx)). by rewrite Hrest, Hfin.
    + apply elem_of_cons in Hin as [->|Hin]; [|done].
      destruct (download_one_returned_present x w Hx) as [n Hn]. fold wx in Hn.
      exists n. rewrite Hfin.
      apply (for_each_maintains (entry_is (file_local_full dlcache_dir x) (Some n))
               (λ _, True) rest (download_one ext dlcache_dir)); [|exact Hn].
      intros y _. by apply download_one_keeps.
Qed.

Lemma fetch_entries_returned_present (entries : list string) (w w1 : world)
    (evs1 : list event) :
  fetch_entries ext entries dlcache_dir w = Run (Returned tt) w1 evs1 →
  ∀ u, u ∈ entries → is_Some (fs w1 !! file_local_full dlcache_dir u).
Proof.
  unfold fetch_entries. intros Hrun.
  match type of Hrun with ?m w = _ =>
    assert (result (m w) = Returned tt) as Hres by (by rewrite Hrun) end.
  destruct (bind_returned_inv _ _ _ _ Hres) as (present & _ & Hres1 & Hfin & _).
  destruct (bind_returned_inv _ _ _ _ Hres1) as ([] & _ & Hres2 & Hfin1 & _).
  rewrite Hfin1 in Hfin. unfold fetch_entries in Hfin. rewrite Hrun in Hfin.
  cbn [final] in Hfin. rewrite Hfin.
  eapply for_each_returned_present.
  rewrite <- (run_eta (for_each _ _ _)). rewrite Hres2. reflexivity.
Qed.

End ResumeProps.

(** C5: when the stage has got through the entries before [url] and the
    download of [url] fails, the stage ends at once with that error: the
    log is the log so far followed by what the failed download itself
    logged, in which there is one request, the one for [url]; nothing is
    logged for the entries after it.  The files of the entries before
    [url] are on disk, as they were when the failed download began. *)
Theorem fetch_failure_aborts_and_keeps_earlier_files
    (ext : externals) (dlcache_dir : string) (w w1 : world)
    (before : list string) (url : string) (after : list string)
    (evs1 : list event) (e : exn) :
  urls = before ++ url :: after →
  fetch_entries ext before dlcache_dir w = Run (Returned tt) w1 evs1 →
  result (download_one ext dlcache_dir url w1) = Raised e →
  let attempt := download_one ext dlcache_dir url w1 in
  download_coco2017 ext dlcache_dir w
    = Run (Raised e) (final attempt) (evs1 ++ events attempt)
  ∧ downloads (events attempt) = [UrlRequest url]
  ∧ ∀ u, u ∈ before →
      ∃ n, fs w1 !! file_local_full dlcache_dir u = Some n
           ∧ fs (final attempt) !! file_local_full dlcache_dir u = Some n.
Proof.
  intros Hurls Hbefore Hfail attempt.
  split; [|split].
  - rewrite download_coco2017_fetch_entries, Hurls.
    by apply fetch_entries_stops.
  - by destruct (download_one_raised ext dlcache_dir url w1 e Hfail).
  - intros u Hu.
    destruct (fetch_entries_returned_present ext dlcache_dir before w w1 evs1
                Hbefore u Hu) as [n Hn].
    exists n. split; [exact Hn|].
    by apply (download_one_keeps ext dlcache_dir (λ _, True)
                (file_local_full dlcache_dir u) n url).
Qed.

(** ** Temporary directories *)





Ltac run_prim_in H :=
  repeat match type of H with
         | context [(?m ≫= ?k) ?w] =>
             rewrite (run_bind_returned m k w _ _ _ eq_refl) in H;
             cbn [result final events get_world modify_world emit] in H;
             unfold mret, M_ret in H; cbn [result final events] in H
         end;
  rewrite ?log_before_nil, ?log_before_run in H.

Ltac run_prim :=
  repeat match goal with
         | |- context [(?m ≫= ?k) ?w] =>
             rewrite (run_bind_returned m k w _ _ _ eq_refl);
             cbn [result final events get_world modify_world emit];
             unfold mret, M_ret; cbn [result final events]
         end;
  rewrite ?log_before_nil, ?log_before_run.

Lemma os_mkdir_run (p : string) (w : world) :
  os_mkdir p w =
  match fs w !! p with
  | Some _ => Run (Raised (Exn FileExistsError p)) w []
  | None =>
      match fs w !! os_path_dirname p with
      | Some Dir => Run (Returned tt) (set_fs (insert p Dir) w) []
      | Some (File _) => Run (Raised (Exn NotADirectoryError p)) w []
      | None => Run (Raised (Exn FileNotFoundError p)) w []
      end
  end.
Proof.
  unfold os_mkdir, os_path_exists, check_parent. run_prim.
  destruct (fs w !! p) as [n|] eqn:Hp.
  - by rewrite bool_decide_eq_true_2 by (by eexists).
  - rewrite bool_decide_eq_false_2 by (by intros [? ?]).
    rewrite bind_assoc_run. run_prim.
    destruct (fs w !! os_path_dirname p) as [[content|]|]; reflexivity.
Qed.

Section TempDirProps.

Context (ext : externals).

(** The directory [mkdtemp] returns is new, is there, and carries the
    prefix under the directory asked for. *)
Lemma mkdtemp_loop_returned (attempts : nat) (prefix dir : string)
    (w w1 : world) (name : string) (evs : list event) :
  mkdtemp_loop ext attempts prefix dir w = Run (Returned name) w1 evs →
  (∃ suffix, name = os_path_join dir (prefix +:+ suffix))
  ∧ fs w !! name = None
  ∧ fs w1 = <[name := Dir]> (fs w)
  ∧ evs = [].
Proof.
  revert w. induction attempts as [|attempts IH]; intros w Hrun.
  { discriminate Hrun. }
  cbn [mkdtemp_loop] in Hrun. run_prim_in Hrun.
  set (file := os_path_join dir (prefix +:+ ext_random_name ext (clock w))) in *.
  rewrite run_bind in Hrun. unfold try_except in Hrun.
  rewrite run_bind, os_mkdir_run in Hrun.
  change (fs (tick w)) with (fs w) in Hrun.
  destruct (fs w !! file) as [n|] eqn:Hfile.
  - cbn [result final events exn_type] in Hrun.
    change (issubclass FileExistsError FileExistsError) with true in Hrun.
    cbn [result final events log_before mret M_ret app] in Hrun.
    rewrite run_eta in Hrun.
    destruct (IH (tick w) Hrun) as (Hname & Hnew & Hfs & Hevs).
    by repeat split.
  - destruct (fs w !! os_path_dirname file) as [[content|]|];
      cbn [result final events exn_type] in Hrun.
    + change (issubclass NotADirectoryError FileExistsError) with false in Hrun.
      discriminate Hrun.
    + cbn in Hrun. inversion Hrun; subst. split; [by eexists|]. by repeat split.
    + change (issubclass FileNotFoundError FileExistsError) with false in Hrun.
      discriminate Hrun.
Qed.

End TempDirProps.

(** ** The install stage *)


Section InstallProps.

Context (ext : externals) (tfds : tfds_module).



(** Where the stage ends: the world its body left, with the staging
    directory and all below it removed. *)
Lemma install_coco2017_fs (dlcache_dir : string) (w w1 : world)
    (name : string) (evs1 : list event) :
  mkdtemp ext "extract_tmp_" (os_path_dirname (script_file ext)) w
    = Run (Returned name) w1 evs1 →
  fs (final (install_coco2017 ext tfds dlcache_dir w))
  = filter (λ kv, ¬ within name kv.1)
      (fs (final (prepare_in ext tfds dlcache_dir name w1))).
Proof.
  intros Hmk. unfold install_coco2017, with_TemporaryDirectory.
  rewrite run_bind, (run_bind_returned _ _ _ _ _ _ Hmk).
  unfold ensuring, rmtree. cbn [modify_world result final events log_before].
  destruct (result (prepare_in ext tfds dlcache_dir name w1)); reflexivity.
Qed.

(** When no temporary directory can be made the stage does nothing. *)
Lemma install_coco2017_no_staging (dlcache_dir : string) (w : world) (e : exn) :
  result (mkdtemp ext "extract_tmp_" (os_path_dirname (script_file ext)) w)
    = Raised e →
  result (install_coco2017 ext tfds dlcache_dir w) = Raised e
  ∧ installs (events (install_coco2017 ext tfds dlcache_dir w)) = [].
Proof.
  intros Hmk. unfold install_coco2017, with_TemporaryDirectory.
  rewrite run_bind, (run_bind_raised _ _ _ _ Hmk).
  cbn [result final events]. split; [reflexivity|].
  assert (maintains (λ _, True) (λ ev, is_stdout ev = true)
            (mkdtemp ext "extract_tmp_" (os_path_dirname (script_file ext)))) as Hm.
  { unfold mkdtemp. generalize TMP_MAX. intros attempts.
    induction attempts as [|attempts IH]; cbn [mkdtemp_loop].
    - apply maintains_raise.
    - apply maintains_bind; [apply maintains_get_world|]. intros w0.
      apply maintains_bind; [by apply maintains_modify_world|]. intros _.
      apply maintains_bind.
      + apply maintains_try_except; [|apply maintains_ret].
        apply maintains_bind; [|intros _; apply maintains_ret].
        intros w' _. rewrite os_mkdir_run.
        destruct (fs w' !! _); [by split|].
        destruct (fs w' !! _) as [[|]|]; by split.
      + intros made. destruct made; [apply maintains_ret | exact IH]. }
  unfold installs. apply filter_stdout_only; [done|]. by apply Hm.
Qed.

End InstallProps.

(** C2: whatever the library call does, and whether the stage returns or
    raises, the staging directory the stage made (a new directory under the
    directory of the script, named [extract_tmp_] and a drawn suffix, there
    while the body of the [with] ran) is not on disk when the stage has
    ended, nor is anything below it. *)
Theorem install_removes_staging_directory
    (ext : externals) (tfds : tfds_module) (dlcache_dir : string)
    (w w1 : world) (name : string) (evs1 : list event) :
  mkdtemp ext "extract_tmp_" (os_path_dirname (script_file ext)) w
    = Run (Returned name) w1 evs1 →
  (∃ suffix,
     name = os_path_join (os_path_dirname (script_file ext)) ("extract_tmp_" +:+ suffix))
  ∧ fs w !! name = None
  ∧ fs w1 !! name = Some Dir
  ∧ ∀ p, within name p = true →
         fs (final (install_coco2017 ext tfds dlcache_dir w)) !! p = None.
Proof.
  intros Hmk.
  destruct (mkdtemp_loop_returned ext _ _ _ _ _ _ _ Hmk) as (Hname & Hnew & Hfs & _).
  split; [exact Hname|]. split; [exact Hnew|].
  split; [by rewrite Hfs, lookup_insert_eq|].
  intros p Hp. rewrite (install_coco2017_fs ext tfds dlcache_dir w w1 name evs1 Hmk).
  apply map_lookup_filter_None. right. intros n _ Hkeep. cbn in Hkeep.
  by rewrite Hp in Hkeep.
Qed.




(** ** The orchestrator *)

Section MainProps.

Context (ext : externals) (tfds : tfds_module).

Lemma tfds_load_run (name split : string) (w : world) :
  tfds_load ext tfds name split w =
  Run (match ext_load ext w (DATA_DIR tfds) name split with
       | Present ds => Returned ds
       | Absent =>
           Raised (Exn AssertionError
                     ("Dataset " +:+ name +:+ ": could not find data in "
                      +:+ DATA_DIR tfds))
       | LoadFailure e => Raised e
       end)
      w [LoadSplit name split].
Proof.
  unfold tfds_load. run_prim.
  destruct (ext_load ext w (DATA_DIR tfds) name split); reflexivity.
Qed.

(** The presence check changes nothing.  When the three splits load, it
    logs the loads, the heading of the report and one line for each count
    it reads, and ends where the read of a count raises. *)
Lemma report_installed_loaded (w : world) (ds_train ds_validation ds_test : dataset) :
  ext_load ext w (DATA_DIR tfds) "coco/2017" "train" = Present ds_train →
  ext_load ext w (DATA_DIR tfds) "coco/2017" "validation" = Present ds_validation →
  ext_load ext w (DATA_DIR tfds) "coco/2017" "test" = Present ds_test →
  report_installed ext tfds w =
  match cardinality ds_train, cardinality ds_validation, cardinality ds_test with
  | Returned n_train, Returned n_validation, Returned n_test =>
      Run (Returned tt) w
        [ LoadSplit "coco/2017" "train";
          LoadSplit "coco/2017" "validation";
          LoadSplit "coco/2017" "test";
          Stdout ("COCO 2017 dataset is already installed:" +:+ "
");
          Stdout (("  #samples (train):      " +:+ pretty n_train) +:+ "
");
          Stdout (("  #samples (validation): " +:+ pretty n_validation) +:+ "
");
          Stdout (("  #samples (test):       " +:+ pretty n_test) +:+ "
") ]
  | Raised e, _, _ =>
      Run (Raised e) w
        [ LoadSplit "coco/2017" "train";
          LoadSplit "coco/2017" "validation";
          LoadSplit "coco/2017" "test";
          Stdout ("COCO 2017 dataset is already installed:" +:+ "
") ]
  | Returned n_train, Raised e, _ =>
      Run (Raised e) w
        [ LoadSplit "coco/2017" "train";
          LoadSplit "coco/2017" "validation";
          LoadSplit "coco/2017" "test";
          Stdout ("COCO 2017 dataset is already installed:" +:+ "
");
          Stdout (("  #samples (train):      " +:+ pretty n_train) +:+ "
") ]
  | Returned n_train, Returned n_validation, Raised e =>
      Run (Raised e) w
        [ LoadSplit "coco/2017" "train";
          LoadSplit "coco/2017" "validation";
          LoadSplit "coco/2017" "test";
          Stdout ("COCO 2017 dataset is already installed:" +:+ "
");
          Stdout (("  #samples (train):      " +:+ pretty n_train) +:+ "
");
          Stdout (("  #samples (validation): " +:+ pretty n_validation) +:+ "
") ]
  end.
Proof.
  intros H1 H2 H3. unfold report_installed.
  rewrite (run_bind_returned _ _ w ds_train w [LoadSplit "coco/2017" "train"])
    by (by rewrite tfds_load_run, H1).
  rewrite (run_bind_returned _ _ w ds_validation w [LoadSplit "coco/2017" "validation"])
    by (by rewrite tfds_load_run, H2).
  rewrite (run_bind_returned _ _ w ds_test w [LoadSplit "coco/2017" "test"])
    by (by rewrite tfds_load_run, H3).
  unfold print, lift.
  destruct (cardinality ds_train) as [n_train|e]; [|reflexivity].
  destruct (cardinality ds_validation) as [n_validation|e]; [|reflexivity].
  destruct (cardinality ds_test) as [n_test|e]; reflexivity.
Qed.

Lemma report_installed_failed (w : world) :
  match presence ext tfds w with
  | Present _ => True
  | Absent =>
      ∃ loads msg, Forall (λ ev, is_load ev = true) loads
        ∧ report_installed ext tfds w = Run (Raised (Exn AssertionError msg)) w loads
  | LoadFailure e =>
      ∃ loads, Forall (λ ev, is_load ev = true) loads
        ∧ report_installed ext tfds w = Run (Raised e) w loads
  end.
Proof.
  unfold presence, report_installed.
  rewrite run_bind, tfds_load_run. cbn [result final events].
  destruct (ext_load ext w (DATA_DIR tfds) "coco/2017" "train") as [ds1| |e1].
  2: { eexists _, _. split; [|reflexivity]. by repeat constructor. }
  2: { eexists _. split; [|reflexivity]. by repeat constructor. }
  rewrite run_bind, tfds_load_run. cbn [result final events].
  destruct (ext_load ext w (DATA_DIR tfds) "coco/2017" "validation") as [ds2| |e2].
  2: { eexists _, _. split; [|reflexivity]. by repeat constructor. }
  2: { eexists _. split; [|reflexivity]. by repeat constructor. }
  rewrite run_bind, tfds_load_run. cbn [result final events].
  destruct (ext_load ext w (DATA_DIR tfds) "coco/2017" "test") as [ds3| |e3].
  - exact Logic.I.
  - eexists _, _. split; [|reflexivity]. by repeat constructor.
  - eexists _. split; [|reflexivity]. by repeat constructor.
Qed.

End MainProps.

(** The handler of [main]: its line on the console, then the fetch stage
    and the install stage on the cache directory of the script. *)
Lemma install_now_run (ext : externals) (tfds : tfds_module) (w : world) :
  let dlcache_dir := os_path_join (os_path_dirname (script_file ext)) "dlcache" in
  install_now ext tfds w
  = log_before
      [Stdout ("COCO 2017 dataset is not installed yet, installing it now..." +:+ "
")]
      ((download_coco2017 ext dlcache_dir;; install_coco2017 ext tfds dlcache_dir) w).
Proof. reflexivity. Qed.

(** An exception out of the presence check meets the handler of [main]
    when its class is [AssertionError] or derived from it, and ends
    [main] otherwise. *)
Lemma main_report_raised (ext : externals) (tfds : tfds_module) (w : world)
    (e : exn) (printed : list event) :
  report_installed ext tfds w = Run (Raised e) w printed →
  main ext tfds w =
    if issubclass (exn_type e) AssertionError
    then log_before
           (printed
            ++ [Stdout ("COCO 2017 dataset is not installed yet, installing it now..." +:+ "
")])
           ((download_coco2017 ext
               (os_path_join (os_path_dirname (script_file ext)) "dlcache");;
             install_coco2017 ext tfds
               (os_path_join (os_path_dirname (script_file ext)) "dlcache")) w)
    else Run (Raised e) w printed.
Proof.
  intros Hrun. unfold main, try_except. rewrite Hrun. cbn [result final events].
  destruct (issubclass (exn_type e) AssertionError); [|reflexivity].
  rewrite install_now_run. by rewrite log_before_log_before.
Qed.

Lemma main_report_returned (ext : externals) (tfds : tfds_module) (w : world)
    (printed : list event) :
  report_installed ext tfds w = Run (Returned tt) w printed →
  main ext tfds w = Run (Returned tt) w printed.
Proof. intros Hrun. unfold main, try_except. by rewrite Hrun. Qed.

(** C4, as the code has it: when the registry has the three splits and
    their three counts are read, [main] logs the three loads and the four
    lines of its report, with the counts of the splits, changes nothing
    and returns; there is no request to the network and no call of the
    install in its log.  The counts are read inside the [try]: when the
    read of one raises, the report ends after the lines written so far,
    and an exception of class [AssertionError] sends [main] to the fetch
    stage and the install stage, as one raised by a load does; one of
    another class ends [main]. *)
Theorem main_reports_when_installed
    (ext : externals) (tfds : tfds_module) (w : world)
    (ds_train ds_validation ds_test : dataset) :
  ext_load ext w (DATA_DIR tfds) "coco/2017" "train" = Present ds_train →
  ext_load ext w (DATA_DIR tfds) "coco/2017" "validation" = Present ds_validation →
  ext_load ext w (DATA_DIR tfds) "coco/2017" "test" = Present ds_test →
  let dlcache_dir := os_path_join (os_path_dirname (script_file ext)) "dlcache" in
  let not_installed :=
    Stdout ("COCO 2017 dataset is not installed yet, installing it now..." +:+ "
") in
  let pipeline :=
    (download_coco2017 ext dlcache_dir;; install_coco2017 ext tfds dlcache_dir) w in
  let stopped (printed : list event) (e : exn) :=
    if issubclass (exn_type e) AssertionError
    then log_before (printed ++ [not_installed]) pipeline
    else Run (Raised e) w printed in
  match cardinality ds_train, cardinality ds_validation, cardinality ds_test with
  | Returned n_train, Returned n_validation, Returned n_test =>
      main ext tfds w =
        Run (Returned tt) w
          [ LoadSplit "coco/2017" "train";
            LoadSplit "coco/2017" "validation";
            LoadSplit "coco/2017" "test";
            Stdout ("COCO 2017 dataset is already installed:" +:+ "
");
            Stdout (("  #samples (train):      " +:+ pretty n_train) +:+ "
");
            Stdout (("  #samples (validation): " +:+ pretty n_validation) +:+ "
");
            Stdout (("  #samples (test):       " +:+ pretty n_test) +:+ "
") ]
      ∧ downloads (events (main ext tfds w)) = []
      ∧ installs (events (main ext tfds w)) = []
  | Raised e, _, _ =>
      main ext tfds w =
        stopped
          [ LoadSplit "coco/2017" "train";
            LoadSplit "coco/2017" "validation";
            LoadSplit "coco/2017" "test";
            Stdout ("COCO 2017 dataset is already installed:" +:+ "
") ] e
  | Returned n_train, Raised e, _ =>
      main ext tfds w =
        stopped
          [ LoadSplit "coco/2017" "train";
            LoadSplit "coco/2017" "validation";
            LoadSplit "coco/2017" "test";
            Stdout ("COCO 2017 dataset is already installed:" +:+ "
");
            Stdout (("  #samples (train):      " +:+ pretty n_train) +:+ "
") ] e
  | Returned n_train, Returned n_validation, Raised e =>
      main ext tfds w =
        stopped
          [ LoadSplit "coco/2017" "train";
            LoadSplit "coco/2017" "validation";
            LoadSplit "coco/2017" "test";
            Stdout ("COCO 2017 dataset is already installed:" +:+ "
");
            Stdout (("  #samples (train):      " +:+ pretty n_train) +:+ "
");
            Stdout (("  #samples (validation): " +:+ pretty n_validation) +:+ "
") ] e
  end.
Proof.
  intros H1 H2 H3 dlcache_dir not_installed pipeline stopped.
  pose proof (report_installed_loaded ext tfds w _ _ _ H1 H2 H3) as Hrun.
  destruct (cardinality ds_train) as [n_train|e];
    [|exact (main_report_raised ext tfds w e _ Hrun)].
  destruct (cardinality ds_validation) as [n_validation|e];
    [|exact (main_report_raised ext tfds w e _ Hrun)].
  destruct (cardinality ds_test) as [n_test|e];
    [|exact (main_report_raised ext tfds w e _ Hrun)].
  rewrite (main_report_returned ext tfds w _ Hrun). by repeat split.
Qed.

(** C1, as the code has it: what sends [main] to the fetch stage and the
    install stage is an exception of class [AssertionError] (or of a class
    derived from it) out of the presence check, whatever made the library
    raise it: the answer that the split is not in the registry, which the
    library gives as an [AssertionError], or any other failure of that
    class.  A failure of any other class ends [main] with that failure,
    after the loads alone.  When the three splits load, the counts are
    read for the report in the same [try], and an exception out of such a
    read is treated in the same way. *)
Theorem main_installs_on_assertion_error
    (ext : externals) (tfds : tfds_module) (w : world) :
  let dlcache_dir := os_path_join (os_path_dirname (script_file ext)) "dlcache" in
  let not_installed :=
    Stdout ("COCO 2017 dataset is not installed yet, installing it now..." +:+ "
") in
  let pipeline :=
    (download_coco2017 ext dlcache_dir;; install_coco2017 ext tfds dlcache_dir) w in
  match presence ext tfds w with
  | Present _ =>
      ∃ ds_train ds_validation ds_test,
        ext_load ext w (DATA_DIR tfds) "coco/2017" "train" = Present ds_train
        ∧ ext_load ext w (DATA_DIR tfds) "coco/2017" "validation" = Present ds_validation
        ∧ ext_load ext w (DATA_DIR tfds) "coco/2017" "test" = Present ds_test
        ∧ match cardinality ds_train, cardinality ds_validation, cardinality ds_test with
          | Returned _, Returned _, Returned _ =>
              result (main ext tfds w) = Returned tt
              ∧ downloads (events (main ext tfds w)) = []
              ∧ installs (events (main ext tfds w)) = []
          | Raised e, _, _
          | Returned _, Raised e, _
          | Returned _, Returned _, Raised e =>
              ∃ printed,
                Forall (λ ev, is_load ev = true ∨ is_stdout ev = true) printed
                ∧ main ext tfds w =
                    if issubclass (exn_type e) AssertionError
                    then log_before (printed ++ [not_installed]) pipeline
                    else Run (Raised e) w printed
          end
  | Absent =>
      ∃ loads, Forall (λ ev, is_load ev = true) loads
        ∧ main ext tfds w = log_before (loads ++ [not_installed]) pipeline
  | LoadFailure e =>
      ∃ loads, Forall (λ ev, is_load ev = true) loads
        ∧ main ext tfds w =
            if issubclass (exn_type e) AssertionError
            then log_before (loads ++ [not_installed]) pipeline
            else Run (Raised e) w loads
  end.
Proof.
  intros dlcache_dir not_installed pipeline.
  pose proof (report_installed_failed ext tfds w) as Hfail.
  destruct (presence ext tfds w) as [ds| |e] eqn:Hpresence.
  - unfold presence in Hpresence.
    destruct (ext_load ext w (DATA_DIR tfds) "coco/2017" "train")
      as [ds1| |e1] eqn:H1; try discriminate Hpresence.
    destruct (ext_load ext w (DATA_DIR tfds) "coco/2017" "validation")
      as [ds2| |e2] eqn:H2; try discriminate Hpresence.
    exists ds1, ds2, ds. split; [reflexivity|]. split; [reflexivity|].
    split; [exact Hpresence|].
    pose proof (report_installed_loaded ext tfds w _ _ _ H1 H2 Hpresence) as Hrun.
    destruct (cardinality ds1) as [n1|e].
    2: { eexists. split; [|exact (main_report_raised ext tfds w e _ Hrun)].
         repeat constructor; by (left + right). }
    destruct (cardinality ds2) as [n2|e].
    2: { eexists. split; [|exact (main_report_raised ext tfds w e _ Hrun)].
         repeat constructor; by (left + right). }
    destruct (cardinality ds) as [n3|e].
    2: { eexists. split; [|exact (main_report_raised ext tfds w e _ Hrun)].
         repeat constructor; by (left + right). }
    rewrite (main_report_returned ext tfds w _ Hrun). by repeat split.
  - destruct Hfail as (loads & msg & Hloads & Hrun).
    exists loads. split; [exact Hloads|].
    rewrite (main_report_raised ext tfds w _ _ Hrun). cbn [exn_type].
    by change (issubclass AssertionError AssertionError) with true.
  - destruct Hfail as (loads & Hloads & Hrun).
    exists loads. split; [exact Hloads|].
    exact (main_report_raised ext tfds w _ _ Hrun).
Qed.

(** ** Module level *)

(** The library takes its data directory from the environment as it is
    when the library is imported. *)
Lemma import_reads_environment (w : world) (v : string) :
  environ w !! "TFDS_DATA_DIR" = Some v →
  import_tensorflow_datasets w = Run (Returned {| DATA_DIR := v |}) w [].
Proof.
  intros Hv. unfold import_tensorflow_datasets. run_prim. by rewrite Hv.
Qed.

(** C9, as the code has it: the script itself sets [TFDS_DATA_DIR], before
    it imports the library, to [tf_datasets] in the directory of the
    script, whatever value the variable had; so the library, which reads
    the variable when it is imported, always has that directory as the
    root of the registry, and a value the operator gave is overwritten. *)
Theorem registry_root_is_set_by_the_script (ext : externals) (w : world) :
  let root := os_path_join (os_path_dirname (script_file ext)) "tf_datasets" in
  module_level ext w
  = Run (Returned {| DATA_DIR := root |})
        (set_environ (insert "TFDS_DATA_DIR" root) w) []
  ∧ environ (final (module_level ext w)) !! "TFDS_DATA_DIR" = Some root.
Proof.
  intros root. unfold module_level.
  rewrite (run_bind_returned _ _ w tt
             (set_environ (insert "TFDS_DATA_DIR" root) w) []) by reflexivity.
  rewrite (import_reads_environment _ root)
    by (cbn; apply lookup_insert_eq).
  split; [reflexivity|]. cbn. apply lookup_insert_eq.
Qed.

(** * The properties on the scenarios *)

(** The files the manifest is kept in. *)
Example manifest_files :
  map (file_local_full Scenario.cache) urls
  = [ "/srv/ml/dlcache/annotations_trainval2017.zip";
      "/srv/ml/dlcache/image_info_test2017.zip";
      "/srv/ml/dlcache/test2017.zip";
      "/srv/ml/dlcache/train2017.zip";
      "/srv/ml/dlcache/val2017.zip" ].
Proof. reflexivity. Qed.

(** C3 on a cache that holds a cut-off archive: it is taken as downloaded. *)
Lemma fetch_skips_cached_entries_witness :
  Scenario.val_url ∈ urls
  ∧ fs Scenario.with_partial_archive
      !! file_local_full Scenario.cache Scenario.val_url = Some (File "PK")
  ∧ ((UrlRequest Scenario.val_url
        ∉ events (download_coco2017 Scenario.healthy Scenario.cache
                    Scenario.with_partial_archive))
     ∧ fs (final (download_coco2017 Scenario.healthy Scenario.cache
                    Scenario.with_partial_archive))
         !! file_local_full Scenario.cache Scenario.val_url = Some (File "PK")
     ∧ (result (download_coco2017 Scenario.healthy Scenario.cache
                  Scenario.with_partial_archive) = Returned tt →
        Stdout ("Already downloaded: '" +:+ Scenario.val_url +:+ "'." +:+ "
") ∈ events (download_coco2017 Scenario.healthy Scenario.cache
              Scenario.with_partial_archive))).
Proof.
  assert (Scenario.val_url ∈ urls) as Hin.
  { unfold urls, Scenario.val_url. do 4 right. left. }
  assert (fs Scenario.with_partial_archive
            !! file_local_full Scenario.cache Scenario.val_url = Some (File "PK"))
    as Hfile by (vm_compute; reflexivity).
  split; [exact Hin|]. split; [exact Hfile|].
  exact (fetch_skips_cached_entries Scenario.healthy Scenario.cache
           Scenario.with_partial_archive Scenario.val_url (File "PK") Hin Hfile).
Defined.

(** C5 on a server that refuses the third archive. *)
Lemma fetch_failure_aborts_witness :
  urls = [Scenario.annotations_url; Scenario.image_info_url]
         ++ Scenario.test_url :: [Scenario.train_url; Scenario.val_url]
  ∧ download_coco2017 Scenario.third_download_fails Scenario.cache Scenario.fresh
    = Run (Raised Scenario.refused)
        (final (download_one Scenario.third_download_fails Scenario.cache
                  Scenario.test_url
                  (final (fetch_entries Scenario.third_download_fails
                            [Scenario.annotations_url; Scenario.image_info_url]
                            Scenario.cache Scenario.fresh))))
        (events (fetch_entries Scenario.third_download_fails
                   [Scenario.annotations_url; Scenario.image_info_url]
                   Scenario.cache Scenario.fresh)
         ++ events (download_one Scenario.third_download_fails Scenario.cache
                      Scenario.test_url
                      (final (fetch_entries Scenario.third_download_fails
                                [Scenario.annotations_url; Scenario.image_info_url]
                                Scenario.cache Scenario.fresh)))).
Proof.
  assert (urls = [Scenario.annotations_url; Scenario.image_info_url]
                 ++ Scenario.test_url :: [Scenario.train_url; Scenario.val_url])
    as Hurls by reflexivity.
  split; [exact Hurls|].
  refine (proj1 (fetch_failure_aborts_and_keeps_earlier_files
                   Scenario.third_download_fails Scenario.cache Scenario.fresh _
                   _ _ _ _ Scenario.refused Hurls _ _)).
  - vm_compute. reflexivity.
  - vm_compute. reflexivity.
Defined.

(** C2 on a library call that fails after it has extracted a file. *)
Lemma install_removes_staging_directory_witness :
  mkdtemp Scenario.library_fails "extract_tmp_"
    (os_path_dirname (script_file Scenario.library_fails)) Scenario.fresh
  = Run (Returned "/srv/ml/extract_tmp_k3x0")
        (tick (set_fs (insert "/srv/ml/extract_tmp_k3x0" Dir) Scenario.fresh)) []
  ∧ result (install_coco2017 Scenario.library_fails Scenario.tfds Scenario.cache
              Scenario.fresh) = Raised Scenario.corrupt
  ∧ fs (final (install_coco2017 Scenario.library_fails Scenario.tfds
                 Scenario.cache Scenario.fresh))
      !! "/srv/ml/extract_tmp_k3x0" = None
  ∧ fs (final (install_coco2017 Scenario.library_fails Scenario.tfds
                 Scenario.cache Scenario.fresh))
      !! "/srv/ml/extract_tmp_k3x0/annotations.json" = None.
Proof.
  assert (mkdtemp Scenario.library_fails "extract_tmp_"
            (os_path_dirname (script_file Scenario.library_fails)) Scenario.fresh
          = Run (Returned "/srv/ml/extract_tmp_k3x0")
              (tick (set_fs (insert "/srv/ml/extract_tmp_k3x0" Dir) Scenario.fresh)) [])
    as Hmk by (vm_compute; reflexivity).
  pose proof (proj2 (proj2 (proj2
    (install_removes_staging_directory Scenario.library_fails Scenario.tfds
       Scenario.cache Scenario.fresh _ _ _ Hmk)))) as Hgone.
  split; [exact Hmk|]. split; [vm_compute; reflexivity|].
  split; apply Hgone; reflexivity.
Defined.


(** C4 on a machine that has the dataset. *)
Lemma main_reports_when_installed_witness :
  main Scenario.healthy Scenario.tfds Scenario.installed
  = Run (Returned tt) Scenario.installed
      [ LoadSplit "coco/2017" "train";
        LoadSplit "coco/2017" "validation";
        LoadSplit "coco/2017" "test";
        Stdout ("COCO 2017 dataset is already installed:" +:+ "
");
        Stdout (("  #samples (train):      " +:+ "5000") +:+ "
");
        Stdout (("  #samples (validation): " +:+ "5000") +:+ "
");
        Stdout (("  #samples (test):       " +:+ "5000") +:+ "
") ]
  ∧ downloads (events (main Scenario.healthy Scenario.tfds Scenario.installed)) = []
  ∧ installs (events (main Scenario.healthy Scenario.tfds Scenario.installed)) = [].
Proof.
  apply (main_reports_when_installed Scenario.healthy Scenario.tfds Scenario.installed
           {| cardinality := Returned 5000 |} {| cardinality := Returned 5000 |}
           {| cardinality := Returned 5000 |});
    vm_compute; reflexivity.
Defined.

(** C4, as the spec states it, fails where the three splits load and an
    assertion of the library fails while the count of the last one is
    read: [main] has loaded the three splits, and yet it does not stop
    after its report; it fetches the five archives and calls the
    install. *)
Lemma main_installs_after_count_assertion :
  ext_load Scenario.count_asserts Scenario.installed (DATA_DIR Scenario.tfds)
    "coco/2017" "train" = Present {| cardinality := Returned 5000 |}
  ∧ ext_load Scenario.count_asserts Scenario.installed (DATA_DIR Scenario.tfds)
      "coco/2017" "validation" = Present {| cardinality := Returned 5000 |}
  ∧ ext_load Scenario.count_asserts Scenario.installed (DATA_DIR Scenario.tfds)
      "coco/2017" "test" = Present {| cardinality := Raised Scenario.unreadable |}
  ∧ result (main Scenario.count_asserts Scenario.tfds Scenario.installed) = Returned tt
  ∧ length (downloads (events (main Scenario.count_asserts Scenario.tfds
                                 Scenario.installed))) = 5%nat
  ∧ length (installs (events (main Scenario.count_asserts Scenario.tfds
                                Scenario.installed))) = 1%nat.
Proof.
  split; [reflexivity|]. split; [reflexivity|]. split; [reflexivity|].
  split; [vm_compute; reflexivity|]. split; vm_compute; reflexivity.
Qed.

(** C1, as the spec states it, fails where an assertion of the library
    fails on a registered dataset: the registry did not answer that the
    split is absent, yet [main] does not end with the failure; it fetches
    the five archives and calls the install. *)
Lemma main_installs_after_unrelated_assertion :
  presence Scenario.load_asserts Scenario.tfds Scenario.installed
  = LoadFailure Scenario.inconsistent
  ∧ presence Scenario.load_asserts Scenario.tfds Scenario.installed ≠ Absent
  ∧ result (main Scenario.load_asserts Scenario.tfds Scenario.installed) = Returned tt
  ∧ length (downloads (events (main Scenario.load_asserts Scenario.tfds
                                 Scenario.installed))) = 5%nat
  ∧ length (installs (events (main Scenario.load_asserts Scenario.tfds
                                Scenario.installed))) = 1%nat.
Proof.
  split; [reflexivity|]. split; [discriminate|].
  split; [vm_compute; reflexivity|]. split; vm_compute; reflexivity.
Qed.

(** C9, as the spec states it, fails where the operator has set the
    variable: the registry is not rooted at the operator's path. *)
Lemma operator_data_dir_is_overwritten :
  environ Scenario.operator_set !! "TFDS_DATA_DIR" = Some "/data/tfds"
  ∧ result (module_level Scenario.healthy Scenario.operator_set)
    = Returned {| DATA_DIR := "/srv/ml/tf_datasets" |}
  ∧ result (module_level Scenario.healthy Scenario.operator_set)
    ≠ Returned {| DATA_DIR := "/data/tfds" |}.
Proof.
  split; [vm_compute; reflexivity|]. split; [vm_compute; reflexivity|].
  vm_compute. discriminate.
Qed.

(** C10, as the spec states it, fails one byte past the total: the
    percentage is 100, not more. *)
Lemma progress_one_byte_past_total_is_100 :
  0 < 1000 ∧ 1000 < 1001 * 1
  ∧ curr_percentage 1001 1 1000 = Returned 100
  ∧ ¬ (100 < 100)
  ∧ events (__call__ __init__ 1001 1 1000 Scenario.fresh)
    = [Stdout (progress_text 100)].
Proof.
  split; [done|]. split; [done|]. split; [reflexivity|]. split; [lia|].
  by rewrite (call_returned __init__ 1001 1 1000 Scenario.fresh 100).
Qed.



(** C10, as the code has it: for a sample on the exact range whose bytes
    so far exceed a positive total, the percentage is at least 100 and is
    away from the exact quotient by less than one; it is not held at 100,
    it is more than 100 once the quotient reaches 101, and it is what the
    indicator writes. *)
Theorem progress_past_total_is_at_least_100
    (self : t) (block_num block_size total_size : Z) (w : world) :
  exact_range block_num block_size total_size →
  0 < total_size →
  total_size < block_num * block_size →
  ∃ p, curr_percentage block_num block_size total_size = Returned p
       ∧ 100 ≤ p
       ∧ (p - 1) * total_size < 100 * block_num * block_size < (p + 1) * total_size
       ∧ (101 * total_size ≤ 100 * block_num * block_size → 100 < p)
       ∧ (last_percentage self ≠ Some p →
          events (__call__ self block_num block_size total_size w)
          = [Stdout (progress_text p)]).
Proof.
  intros Hrange Hpos Hpast.
  destruct (curr_percentage_near_quotient _ _ _ Hrange Hpos) as (p & Hp & Hnear & Hp0).
  exists p. split; [exact Hp|].
  split; [nia|]. split; [exact Hnear|]. split; [nia|].
  intros Hchanged. rewrite (call_returned _ _ _ _ _ _ Hp). cbn [events].
  by rewrite bool_decide_eq_false_2.
Qed.

(** C10 on the last block of a download of 20000 bytes: three blocks of
    8192 bytes make 123%. *)
Lemma progress_past_total_witness :
  exact_range 3 bs 20000
  ∧ 0 < 20000
  ∧ 20000 < 3 * bs
  ∧ curr_percentage 3 bs 20000 = Returned 123
  ∧ ∃ p, curr_percentage 3 bs 20000 = Returned p ∧ 100 ≤ p.
Proof.
  assert (exact_range 3 bs 20000) as Hrange by (unfold exact_range, bs; lia).
  assert (0 < 20000) as Hpos by lia.
  assert (20000 < 3 * bs) as Hpast by (unfold bs; lia).
  split; [exact Hrange|]. split; [exact Hpos|]. split; [exact Hpast|].
  split; [reflexivity|].
  destruct (progress_past_total_is_at_least_100 __init__ 3 bs 20000 Scenario.fresh
              Hrange Hpos Hpast) as (p & Hp & Hge & _).
  exists p. by split.
Defined.
